(** * Startup-time measurement script (main.py): model and properties

    The script shells out to [docker], times each run with
    [time.perf_counter], and prints summary statistics.  The model below
    follows main.py function by function.

    - Python [float] timestamps and durations are carried as rationals
      ([Q]): every finite binary64 value is one.  Where Python rounds (the
      subtraction of two readings, the last division of
      [statistics.mean]) the model rounds to the nearest binary64, ties
      to even, with [round64].  There are no infinities: the times of a
      run are far from the largest binary64.
    - The outside world (the clock, the [docker] binary) is an oracle
      indexed by call number; what the script does to the world (prints,
      process launches, sleeps) is recorded in a trace.
    - Exceptions are values of [exn]; [except Exception] catches exactly
      those for which [is_Exception] holds.  A launch raises synchronously
      or not at all: signals that arrive from outside at any point
      (KeyboardInterrupt) are not outcomes of a call and are not
      modelled. *)

From Stdlib Require Import String Ascii List ZArith QArith Qminmax Qround Qpower
  Qabs Lia Lqa Bool Arith.
Import ListNotations.
Open Scope string_scope.

(** ** Text written by [print] *)

(** An f-string is kept as its pieces: literal text, an integer written
    with [{n}], a float written with [{x:.3f}], a list written with
    [{xs}]. *)
Inductive piece : Type :=
| Str (s : string)
| Num (n : Z)
| Fix3 (x : Q)
| Repr (xs : list string).   (* the [repr] of a list of strings *)

Definition text := list piece.

Inductive stream : Type := Stdout | Stderr.

Definition nl : string := String "010"%char EmptyString.

(** [s * n] on strings. *)
Fixpoint str_repeat (s : string) (n : nat) : string :=
  match n with
  | O => ""
  | S n' => s ++ str_repeat s n'
  end.

(** [sep.join(xs)] *)
Fixpoint join (sep : string) (xs : list string) : string :=
  match xs with
  | [] => ""
  | [x] => x
  | x :: rest => x ++ sep ++ join sep rest
  end.

(** ** shlex.quote *)

Definition in_range (lo hi : nat) (c : ascii) : bool :=
  (lo <=? nat_of_ascii c)%nat && (nat_of_ascii c <=? hi)%nat.

(** Characters outside the class [[^\w@%+=:,./-]] (ASCII flag). *)
Definition shell_safe (c : ascii) : bool :=
  in_range 97 122 c || in_range 65 90 c || in_range 48 57 c ||
  existsb (Ascii.eqb c)
    ["_"; "@"; "%"; "+"; "="; ":"; ","; "."; "/"; "-"]%char.

Fixpoint all_chars (p : ascii -> bool) (s : string) : bool :=
  match s with
  | EmptyString => true
  | String c r => p c && all_chars p r
  end.

Definition squote : string := String "039"%char EmptyString.
Definition dquote : string := String "034"%char EmptyString.

(** [s.replace("'", "'\"'\"'")] *)
Fixpoint escape_squotes (s : string) : string :=
  match s with
  | EmptyString => EmptyString
  | String c r =>
      if Ascii.eqb c "039"%char
      then squote ++ dquote ++ squote ++ dquote ++ squote ++ escape_squotes r
      else String c (escape_squotes r)
  end.

Definition shlex_quote (s : string) : string :=
  if (s =? "")%string then squote ++ squote
  else if all_chars shell_safe s then s
  else squote ++ escape_squotes s ++ squote.

(** ** Exceptions *)

Inductive exn : Type :=
| FileNotFoundError (msg : string)
| CalledProcessError (returncode : Z) (cmd : list string)
| OtherException (msg : string)   (* any other instance of Exception *)
| ValueError (msg : string)
| StatisticsError (msg : string)
| SystemExit (code : Z).          (* BaseException only *)

(** [isinstance(e, Exception)] *)
Definition is_Exception (e : exn) : bool :=
  match e with
  | SystemExit _ => false
  | _ => true
  end.

(** [str(e)], as printed by [{e}]. *)
Definition str_exn (e : exn) : text :=
  match e with
  | FileNotFoundError msg => [Str msg]
  | CalledProcessError rc cmd =>
      [Str "Command '"; Repr cmd;
       Str "' returned non-zero exit status "; Num rc; Str "."]
  | OtherException msg => [Str msg]
  | ValueError msg => [Str msg]
  | StatisticsError msg => [Str msg]
  | SystemExit code => [Num code]
  end.

(** ** The world *)

(** What one attempt to launch a process comes to. *)
Inductive spawn_outcome : Type :=
| Exited (returncode : Z)     (* the process ran and exited *)
| NotFound (msg : string)     (* no such binary: FileNotFoundError *)
| Failed (msg : string).      (* any other Exception from the launch *)

Inductive event : Type :=
| Print (file : stream) (t : text) (end_ : string)
| Run (cmd : list string) (input : option string)
| Sleep (secs : Z)
| Clock (t : Q).        (* a reading of [time.perf_counter] *)

(** The oracle: the n-th clock reading and the n-th launch outcome. *)
Record host : Type := mkHost {
  clock : nat -> Q;
  docker : nat -> spawn_outcome
}.

Record world : Type := mkWorld {
  reads : nat;            (* clock readings taken so far *)
  launches : nat;         (* processes launched so far *)
  trace : list event      (* oldest first *)
}.

Definition initial : world := mkWorld 0 0 [].

Definition emit (e : event) (w : world) : world :=
  mkWorld (reads w) (launches w) (trace w ++ [e]).

(** ** A state and exception monad *)

Inductive outcome (A : Type) : Type :=
| Ok (a : A)
| Raise (e : exn).
Arguments Ok {A} a.
Arguments Raise {A} e.

Definition M (A : Type) : Type := world -> outcome A * world.

Definition ret {A} (a : A) : M A := fun w => (Ok a, w).

Definition raise {A} (e : exn) : M A := fun w => (Raise e, w).

Definition bind {A B} (m : M A) (k : A -> M B) : M B :=
  fun w =>
    match m w with
    | (Ok a, w') => k a w'
    | (Raise e, w') => (Raise e, w')
    end.

(** [try: body except ...: handler e]; the handler re-raises what it does
    not match. *)
Definition try_except {A} (body : M A) (handler : exn -> M A) : M A :=
  fun w =>
    match body w with
    | (Ok a, w') => (Ok a, w')
    | (Raise e, w') => handler e w'
    end.

Notation "x <- m ;; k" := (bind m (fun x => k))
  (at level 61, m at next level, right associativity).
Notation "m ;; k" := (bind m (fun _ => k))
  (at level 61, right associativity).

(** ** Library calls *)

Definition print_to (file : stream) (t : text) (end_ : string) : M unit :=
  fun w => (Ok tt, emit (Print file t end_) w).

(** [print(t)] *)
Definition print (t : text) : M unit := print_to Stdout t nl.

(** [time.sleep(secs)] *)
Definition sleep (secs : Z) : M unit :=
  fun w => (Ok tt, emit (Sleep secs) w).

Section Host.

Variable h : host.

(** [time.perf_counter()] *)
Definition perf_counter : M Q :=
  fun w => (Ok (clock h (reads w)),
            mkWorld (S (reads w)) (launches w)
                    (trace w ++ [Clock (clock h (reads w))])).

(** [subprocess.run(cmd, input=..., check=..., stdout=DEVNULL,
    stderr=DEVNULL)]; the value is the completed process's return code. *)
Definition subprocess_run (cmd : list string) (input : option string)
    (check : bool) : M Z :=
  fun w =>
    let w' := mkWorld (reads w) (S (launches w)) (trace w ++ [Run cmd input]) in
    match docker h (launches w) with
    | Exited rc =>
        if check && negb (rc =? 0)%Z
        then (Raise (CalledProcessError rc cmd), w')
        else (Ok rc, w')
    | NotFound msg => (Raise (FileNotFoundError msg), w')
    | Failed msg => (Raise (OtherException msg), w')
    end.

End Host.

(** A computation that touches nothing of the world. *)
Definition lift {A} (r : outcome A) : M A := fun w => (r, w).

(** [sys.exit(code)] *)
Definition sys_exit {A} (code : Z) : M A := raise (SystemExit code).

(** ** Floats *)

(** [floor (log2 q)], for [q > 0]. *)
Definition Qlog2 (q : Q) : Z :=
  let k := (Z.log2 (Qnum q) - Z.log2 (Z.pos (Qden q)))%Z in
  if Qle_bool (2 ^ k) q then k else (k - 1)%Z.

(** The nearest integer, ties to even. *)
Definition rnd_even (x : Q) : Z :=
  let f := Qfloor x in
  match Qcompare (x - inject_Z f) (1 # 2) with
  | Lt => f
  | Gt => (f + 1)%Z
  | Eq => if Z.even f then f else (f + 1)%Z
  end.

(** The exponent of the last bit of the binary64 nearest to [q > 0]:
    53 bits of mantissa, and no exponent below that of the subnormals. *)
Definition float_exp (q : Q) : Z := Z.max (Qlog2 q - 52) (-1074).

Definition round_pos (q : Q) : Q :=
  inject_Z (rnd_even (q / 2 ^ float_exp q)) * 2 ^ float_exp q.

(** The binary64 nearest to [q], ties to even. *)
Definition round64 (q : Q) : Q :=
  let r := Qred q in
  match Qnum r with
  | Z0 => 0
  | Zpos _ => round_pos r
  | Zneg _ => - round_pos (- r)
  end.

(** [x - y] on floats. *)
Definition fsub (x y : Q) : Q := round64 (x - y).

(** [q] is a binary64 value. *)
Definition is_float (q : Q) : Prop := round64 q == q.

(** ** Builtins and the statistics module *)

(** [x < y] on floats. *)
Definition Qlt_bool (x y : Q) : bool := negb (Qle_bool y x).

(** [min] keeps the first smallest element. *)
Fixpoint min_loop (cur : Q) (xs : list Q) : Q :=
  match xs with
  | [] => cur
  | x :: rest => min_loop (if Qlt_bool x cur then x else cur) rest
  end.

Definition py_min (xs : list Q) : outcome Q :=
  match xs with
  | [] => Raise (ValueError "min() arg is an empty sequence")
  | x :: rest => Ok (min_loop x rest)
  end.

(** [max] keeps the first largest element. *)
Fixpoint max_loop (cur : Q) (xs : list Q) : Q :=
  match xs with
  | [] => cur
  | x :: rest => max_loop (if Qlt_bool cur x then x else cur) rest
  end.

Definition py_max (xs : list Q) : outcome Q :=
  match xs with
  | [] => Raise (ValueError "max() arg is an empty sequence")
  | x :: rest => Ok (max_loop x rest)
  end.

(** [sum(xs)], exactly. *)
Definition Qsum (xs : list Q) : Q := fold_left Qplus xs 0.

(** [len(xs)], as a number to divide by. *)
Definition Qlen (xs : list Q) : Q := inject_Z (Z.of_nat (length xs)).

(** [statistics.mean]: the exact sum, divided, and only then converted
    to a float. *)
Definition mean (xs : list Q) : outcome Q :=
  match xs with
  | [] => Raise (StatisticsError "mean requires at least one data point")
  | _ => Ok (round64 (Qsum xs / Qlen xs))
  end.

(** Sum of squared deviations from the mean. *)
Definition sum_sq_dev (xs : list Q) : Q :=
  let c := Qsum xs / Qlen xs in
  Qsum (map (fun x => (x - c) * (x - c)) xs).

(** Sample variance, for at least two data points. *)
Definition sample_variance (xs : list Q) : Q :=
  sum_sq_dev xs / (Qlen xs - 1).

Section Stdev.

(** The square root of the statistics module, from rationals to floats. *)
Variable fsqrt : Q -> Q.

(** [statistics.stdev] *)
Definition stdev (xs : list Q) : outcome Q :=
  if (length xs <? 2)%nat
  then Raise (StatisticsError "stdev requires at least two data points")
  else Ok (fsqrt (sample_variance xs)).

End Stdev.

(** ** Settings of main.py *)

Definition LOGSTASH_DOCKER_IMAGE : string :=
  "docker.elastic.co/logstash/logstash:8.17.4".

Definition LOGSTASH_PIPELINE_CONFIG : string :=
  "input { stdin {} } filter {} output { stdout {} }".

Module Source.

(** The values main.py ships with; the script's header invites editing
    them, and the functions below take them as parameters. *)
Definition NUM_RUNS : nat := 10.

Definition JVM_OPTIONS_SETS : list (option string * string) :=
  [ (None, "1. ベースライン");
    (Some "-Djruby.compile.invokedynamic=false -Djruby.compile.mode=OFF -XX:+TieredCompilation -XX:TieredStopAtLevel=1",
     "2. オプションあり") ].

End Source.

(** Truth value of a [str | None]. *)
Definition truthy (o : option string) : bool :=
  match o with
  | None => false
  | Some s => negb (s =? "")%string
  end.

(** [f"{o}"] *)
Definition opts_text (o : option string) : string :=
  match o with
  | Some s => s
  | None => "None"
  end.

(** Lines 52-60 of [measure_startup_time]: the command line. *)
Definition build_command (jvm_opts : option string) : list string :=
  let base_command := ["docker"; "run"; "--rm"; "-i"] in
  let base_command :=
    if truthy jvm_opts
    then (base_command ++ ["-e"; ("LS_JAVA_OPTS=" ++ opts_text jvm_opts)%string])%list
    else base_command in
  let base_command := (base_command ++ [LOGSTASH_DOCKER_IMAGE])%list in
  (base_command ++ ["-e"; LOGSTASH_PIPELINE_CONFIG])%list.

(** ** The script *)

(** How the [for] loop of [measure_startup_time] is left: by running out
    of trials, or by a [return] in one of the handlers.  Either way the
    value carries [durations] as it stands at that point. *)
Inductive loop_exit : Type :=
| Fallthrough (durations : list Q)
| Returned (durations : list Q).

Definition durations_of (x : loop_exit) : list Q :=
  match x with
  | Fallthrough ds => ds
  | Returned ds => ds
  end.

(** ['hello\n'.encode()] *)
Definition hello : string := "hello" ++ nl.

Definition dashes : string := str_repeat "-" 50.

(** *** Messages, by the line of main.py that prints them *)

(* line 33 *)
Definition msg_no_docker : text :=
  [Str "エラー: 'docker' コマンドが見つかりません。Dockerがインストールされ、PATHが通っているか確認してください。"].

(* line 36 *)
Definition msg_no_daemon : text :=
  [Str "エラー: Dockerデーモンに接続できません。Dockerが起動しているか、実行権限があるか確認してください。"].

(* line 37 *)
Definition msg_hint : text :=
  [Str "ヒント: 現在のユーザーを 'docker' グループに追加するか、スクリプトを 'sudo' で実行する必要があるかもしれません。"].

(* line 44 *)
Definition msg_measuring (description : string) : text :=
  [Str "測定中: "; Str description].

(* line 45 *)
Definition msg_image : text :=
  [Str "Dockerイメージ: "; Str LOGSTASH_DOCKER_IMAGE].

(* line 46 *)
Definition msg_jvm (jvm_opts : option string) : text :=
  [Str "JVM オプション: ";
   Str (if truthy jvm_opts then opts_text jvm_opts else "なし")].

(* line 63 *)
Definition msg_trial (i num_runs : nat) : text :=
  [Str "  実行 "; Num (Z.of_nat i); Str "/"; Num (Z.of_nat num_runs);
   Str "... "].

(* line 84 *)
Definition msg_done (duration : Q) : text :=
  [Str "完了 ("; Fix3 duration; Str " 秒)"].

(* line 87 *)
Definition msg_run_failed (returncode : Z) : text :=
  [Str (nl ++ "エラー: Dockerコンテナの実行に失敗しました (終了コード: ");
   Num returncode; Str ")"].

(* line 88 *)
Definition msg_command (base_command : list string) : text :=
  [Str "コマンド: "; Str (join " " (map shlex_quote base_command))].

(* line 92 *)
Definition msg_unexpected (e : exn) : text :=
  Str (nl ++ "予期せぬエラーが発生しました: ") :: str_exn e.

(* line 99 *)
Definition msg_no_data : text :=
  [Str "有効な実行データがありません。"].

(* line 108 *)
Definition msg_results : text := [Str (nl ++ "--- 結果 ---")].

(* line 109 *)
Definition msg_count (n : nat) : text :=
  [Str "試行回数: "; Num (Z.of_nat n)].

(* line 110 *)
Definition msg_min (x : Q) : text := [Str "最小時間: "; Fix3 x; Str " 秒"].

(* line 111 *)
Definition msg_max (x : Q) : text := [Str "最大時間: "; Fix3 x; Str " 秒"].

(* line 112 *)
Definition msg_avg (x : Q) : text := [Str "平均時間: "; Fix3 x; Str " 秒"].

(* line 113 *)
Definition msg_std (x : Q) : text := [Str "標準偏差: "; Fix3 x].

(* line 115 *)
Definition msg_wait : text := [Str (nl ++ "次の測定まで5秒待機...")].

(* line 138 *)
Definition msg_all_done : text :=
  [Str "すべての測定が完了しました。"].

(** *** Lines 103-106: the four statistics *)

Record summary : Type := mkSummary {
  min_time : Q;
  max_time : Q;
  avg_time : Q;
  std_dev : Q
}.

Definition obind {A B} (r : outcome A) (k : A -> outcome B) : outcome B :=
  match r with
  | Ok a => k a
  | Raise e => Raise e
  end.

(** How the interpreter leaves: with an exit status, or on an exception
    nobody caught (a traceback, and status 1). *)
Inductive termination : Type :=
| Exit (code : Z)
| Traceback (e : exn).

Definition exit_status (t : termination) : Z :=
  match t with
  | Exit code => code
  | Traceback _ => 1
  end.

Section Script.

Variable h : host.
Variable fsqrt : Q -> Q.
Variable NUM_RUNS : nat.
Variable JVM_OPTIONS_SETS : list (option string * string).

Definition check_docker : M bool :=
  try_except
    (subprocess_run h ["docker"; "info"] None true ;;
     ret true)
    (fun e =>
       match e with
       | FileNotFoundError _ =>
           print_to Stderr msg_no_docker nl ;;
           ret false
       | CalledProcessError _ _ =>
           print_to Stderr msg_no_daemon nl ;;
           print_to Stderr msg_hint nl ;;
           ret false
       | _ => raise e
       end).

(** Lines 63-96: the body of the [for] loop, for trial [i]. *)
Definition trial (base_command : list string) (i : nat)
    (durations : list Q) : M loop_exit :=
  print_to Stdout (msg_trial i NUM_RUNS) "" ;;
  r <- try_except
         (start_time <- perf_counter h ;;
          subprocess_run h base_command (Some hello) true ;;
          end_time <- perf_counter h ;;
          let duration := fsub end_time start_time in
          let durations := (durations ++ [duration])%list in
          print (msg_done duration) ;;
          ret (Fallthrough durations))
         (fun e =>
            match e with
            | CalledProcessError returncode _ =>
                print (msg_run_failed returncode) ;;
                print (msg_command base_command) ;;
                ret (Returned durations)
            | _ =>
                if is_Exception e
                then print (msg_unexpected e) ;; ret (Returned durations)
                else raise e
            end) ;;
  match r with
  | Fallthrough durations => sleep 1 ;; ret (Fallthrough durations)
  | Returned durations => ret (Returned durations)
  end.

(** Line 62: [for i in range(1, NUM_RUNS + 1)], over the remaining
    indices. *)
Fixpoint trials (base_command : list string) (indices : list nat)
    (durations : list Q) : M loop_exit :=
  match indices with
  | [] => ret (Fallthrough durations)
  | i :: rest =>
      r <- trial base_command i durations ;;
      match r with
      | Fallthrough durations => trials base_command rest durations
      | Returned durations => ret (Returned durations)
      end
  end.

Definition summarize (durations : list Q) : outcome summary :=
  obind (py_min durations) (fun min_time =>
  obind (py_max durations) (fun max_time =>
  obind (mean durations) (fun avg_time =>
  obind (if (1 <? length durations)%nat
         then stdev fsqrt durations
         else Ok 0) (fun std_dev =>
  Ok (mkSummary min_time max_time avg_time std_dev))))).

(** Lines 98-116: the statistics reporter. *)
Definition report (durations : list Q) : M unit :=
  match durations with
  | [] => print msg_no_data
  | _ =>
      s <- lift (summarize durations) ;;
      print msg_results ;;
      print (msg_count (length durations)) ;;
      print (msg_min (min_time s)) ;;
      print (msg_max (max_time s)) ;;
      print (msg_avg (avg_time s)) ;;
      print (msg_std (std_dev s)) ;;
      print [Str dashes] ;;
      print msg_wait ;;
      sleep 5
  end.

Definition measure_startup_time (description : string)
    (jvm_opts : option string) : M unit :=
  print [Str dashes] ;;
  print (msg_measuring description) ;;
  print msg_image ;;
  print (msg_jvm jvm_opts) ;;
  print [Str dashes] ;;
  let base_command := build_command jvm_opts in
  r <- trials base_command (seq 1 NUM_RUNS) [] ;;
  match r with
  | Returned _ => ret tt
  | Fallthrough durations => report durations
  end.

(** Lines 135-136: [for opts, desc in JVM_OPTIONS_SETS]. *)
Fixpoint measure_all (sets : list (option string * string)) : M unit :=
  match sets with
  | [] => ret tt
  | (opts, desc) :: rest =>
      measure_startup_time desc opts ;;
      measure_all rest
  end.

(** Lines 119-138. *)
Definition main : M unit :=
  print [Str "Logstash (Docker) 起動時間測定スクリプト"] ;;
  print [Str "-----------------------------------------"] ;;
  ok <- check_docker ;;
  (if negb ok then sys_exit 1 else ret tt) ;;
  print [Str "使用イメージ: "; Str LOGSTASH_DOCKER_IMAGE] ;;
  print [Str "各オプションでの実行回数: "; Num (Z.of_nat NUM_RUNS)] ;;
  print [Str (nl ++ "警告: Dockerコマンドの実行権限が必要です。")] ;;
  print [Str "      (ユーザーが 'docker' グループに所属しているか、"] ;;
  print [Str "       スクリプト自体を 'sudo' で実行する必要があるかもしれません)"] ;;
  print [Str "      初回実行時はDockerイメージのダウンロードに時間がかかることがあります。"] ;;
  print [Str ("      全体の完了まで時間がかかる可能性があります。" ++ nl)] ;;
  measure_all JVM_OPTIONS_SETS ;;
  print msg_all_done.

(** Running the file as a program, from a given world. *)
Definition run_from (w : world) : termination * world :=
  match main w with
  | (Ok _, w') => (Exit 0, w')
  | (Raise (SystemExit code), w') => (Exit code, w')
  | (Raise e, w') => (Traceback e, w')
  end.

Definition run : termination * world := run_from initial.

End Script.

(** ** Reading a command line *)

(** Index of the first ["-e"] that is followed by an argument starting
    with [LS_JAVA_OPTS=]. *)
Fixpoint env_flag_index (cmd : list string) : option nat :=
  match cmd with
  | [] => None
  | a :: rest =>
      match rest with
      | b :: _ =>
          if (a =? "-e")%string && prefix "LS_JAVA_OPTS=" b
          then Some O
          else option_map S (env_flag_index rest)
      | [] => None
      end
  end.

(** Index of the first argument equal to [x]. *)
Fixpoint index_of (x : string) (cmd : list string) : option nat :=
  match cmd with
  | [] => None
  | a :: rest =>
      if (a =? x)%string then Some O else option_map S (index_of x rest)
  end.

(** *** Reading a command line back, the way a shell does *)

Inductive quoting : Type := Unquoted | InSingle | InDouble.

(** The characters that stand for themselves outside quotes. *)
Definition plain_chars : string :=
  "abcdefghijklmnopqrstuvwxyzABCDEFGHIJKLMNOPQRSTUVWXYZ0123456789_@%+=:,./-".

Fixpoint mem_char (c : ascii) (s : string) : bool :=
  match s with
  | EmptyString => false
  | String d r => Ascii.eqb c d || mem_char c r
  end.

Definition word_of (cur : option string) : string :=
  match cur with
  | Some w => w
  | None => ""
  end.

Definition push (cur : option string) (c : ascii) : option string :=
  Some (word_of cur ++ String c EmptyString).

(** Split a line into words: spaces separate words; between single
    quotes everything is literal; between double quotes everything but
    backslash, dollar and backquote is; outside quotes only the plain
    characters are accepted.  [cur] is the word being read, if any.
    [None]: the line is not one this reader can vouch for. *)
Fixpoint split_from (q : quoting) (cur : option string) (line : string)
    : option (list string) :=
  match line with
  | EmptyString =>
      match q with
      | Unquoted =>
          Some (match cur with Some w => [w] | None => [] end)
      | _ => None
      end
  | String c rest =>
      match q with
      | Unquoted =>
          if Ascii.eqb c " " then
            match split_from Unquoted None rest with
            | Some ws => Some (match cur with Some w => w :: ws | None => ws end)
            | None => None
            end
          else if Ascii.eqb c "039" then
            split_from InSingle (Some (word_of cur)) rest
          else if Ascii.eqb c "034" then
            split_from InDouble (Some (word_of cur)) rest
          else if mem_char c plain_chars then
            split_from Unquoted (push cur c) rest
          else None
      | InSingle =>
          if Ascii.eqb c "039" then split_from Unquoted cur rest
          else split_from InSingle (push cur c) rest
      | InDouble =>
          if Ascii.eqb c "034" then split_from Unquoted cur rest
          else if mem_char c "\$`" then None
          else split_from InDouble (push cur c) rest
      end
  end.

Definition shell_words (line : string) : option (list string) :=
  split_from Unquoted None line.

(** ** Reading a trace *)

(** The exception a launch raises, if it raises one. *)
Definition raised_by (o : spawn_outcome) : option exn :=
  match o with
  | Exited _ => None
  | NotFound msg => Some (FileNotFoundError msg)
  | Failed msg => Some (OtherException msg)
  end.

(** The events of a trace that launch a process or sleep, in order. *)
Definition pacing (evs : list event) : list event :=
  filter (fun e => match e with Run _ _ | Sleep _ => true | _ => false end)
         evs.

Definition is_stdout (e : event) : bool :=
  match e with Print Stdout _ _ => true | _ => false end.

Definition is_stderr (e : event) : bool :=
  match e with Print Stderr _ _ => true | _ => false end.

Definition is_run (e : event) : bool :=
  match e with Run _ _ => true | _ => false end.

Definition is_sleep (e : event) : bool :=
  match e with Sleep _ => true | _ => false end.

(** [k] launches of [cmd], each followed by a sleep of one second. *)
Fixpoint paced_trials (cmd : list string) (k : nat) : list event :=
  match k with
  | O => []
  | S k' => Run cmd (Some hello) :: Sleep 1 :: paced_trials cmd k'
  end.

(** [docker info] finds no binary, or exits with a non-zero status. *)
Definition unavailable (o : spawn_outcome) : Prop :=
  match o with
  | NotFound _ => True
  | Exited rc => rc <> 0%Z
  | Failed _ => False
  end.

(** Arithmetic sum, for stating what a mean is. *)
Fixpoint total (xs : list Q) : Q :=
  match xs with
  | [] => 0
  | x :: rest => x + total rest
  end.

(** ** Expected output *)

Section Expected.

Variable h : host.
Variable NUM_RUNS : nat.
Variable base_command : list string.

(** The duration measured by a run whose first clock reading is
    numbered [r]. *)
Definition measured (r : nat) : Q := fsub (clock h (S r)) (clock h r).

(** What a trial that succeeds adds to the trace. *)
Definition trial_events_ok (i r : nat) : list event :=
  [ Print Stdout (msg_trial i NUM_RUNS) "";
    Clock (clock h r);
    Run base_command (Some hello);
    Clock (clock h (S r));
    Print Stdout (msg_done (measured r)) nl;
    Sleep 1 ].

(** What a trial whose process exits with [rc <> 0] adds to the trace,
    its clock reading numbered [r]. *)
Definition trial_events_exit (i r : nat) (rc : Z) : list event :=
  [ Print Stdout (msg_trial i NUM_RUNS) "";
    Clock (clock h r);
    Run base_command (Some hello);
    Print Stdout (msg_run_failed rc) nl;
    Print Stdout (msg_command base_command) nl ].

(** What a trial whose launch raises [e] adds to the trace, its clock
    reading numbered [r]. *)
Definition trial_events_raise (i r : nat) (e : exn) : list event :=
  [ Print Stdout (msg_trial i NUM_RUNS) "";
    Clock (clock h r);
    Run base_command (Some hello);
    Print Stdout (msg_unexpected e) nl ].

(** A run of successful trials, the first clock reading numbered [r]. *)
Fixpoint run_ok (indices : list nat) (r : nat) : list event :=
  match indices with
  | [] => []
  | i :: rest => (trial_events_ok i r ++ run_ok rest (S (S r)))%list
  end.


(** The durations of [n] successful trials in a row. *)
Fixpoint durations_ok (n r : nat) : list Q :=
  match n with
  | O => []
  | S n' => measured r :: durations_ok n' (S (S r))
  end.

(** What the trial that a launch outcome [o] other than [Exited 0] puts
    an end to adds to the trace, its clock reading numbered [r]. *)
Definition abort_events (i r : nat) (o : spawn_outcome) : list event :=
  match o with
  | Exited rc => trial_events_exit i r rc
  | NotFound msg => trial_events_raise i r (FileNotFoundError msg)
  | Failed msg => trial_events_raise i r (OtherException msg)
  end.

(** The launches numbered [l], ..., [l + n - 1] all exit with status 0. *)
Definition all_succeed (l n : nat) : Prop :=
  forall j, (j < n)%nat -> docker h (l + j) = Exited 0.

End Expected.

(** Lines 43-47: what [measure_startup_time] prints first. *)
Definition header (description : string) (jvm_opts : option string)
    : list event :=
  [ Print Stdout [Str dashes] nl;
    Print Stdout (msg_measuring description) nl;
    Print Stdout msg_image nl;
    Print Stdout (msg_jvm jvm_opts) nl;
    Print Stdout [Str dashes] nl ].

(** Lines 108-116: what is printed for a summary of [n] durations. *)
Definition results (n : nat) (s : summary) : list event :=
  [ Print Stdout msg_results nl;
    Print Stdout (msg_count n) nl;
    Print Stdout (msg_min (min_time s)) nl;
    Print Stdout (msg_max (max_time s)) nl;
    Print Stdout (msg_avg (avg_time s)) nl;
    Print Stdout (msg_std (std_dev s)) nl;
    Print Stdout [Str dashes] nl;
    Print Stdout msg_wait nl;
    Sleep 5 ].

(** The text a line starts with. *)
Definition label_of (t : text) : string :=
  match t with
  | Str s :: _ => s
  | _ => ""
  end.

(** Does the event print a line that starts like [t]? *)
Definition says (t : text) (e : event) : bool :=
  match e with
  | Print _ t' _ => (label_of t' =? label_of t)%string
  | _ => false
  end.

Definition stat_labels : list string :=
  map label_of
    [msg_results; msg_count 0; msg_min 0; msg_max 0; msg_avg 0; msg_std 0].

(** Is the event one of the lines 108-113? *)
Definition prints_statistics (e : event) : bool :=
  match e with
  | Print _ t _ => existsb (String.eqb (label_of t)) stat_labels
  | _ => false
  end.

(** The world after the events [evs]. *)
Definition emits (evs : list event) (w : world) : world :=
  mkWorld (reads w) (launches w) (trace w ++ evs).

(** The world after [reads] more clock readings, [launches] more
    launches and the events [evs]. *)
Definition advance (dr dl : nat) (evs : list event) (w : world) : world :=
  mkWorld (reads w + dr) (launches w + dl) (trace w ++ evs).

(** ** More ways to read a trace *)

(** The processes launched, in order. *)
Definition launched (evs : list event) : list event := filter is_run evs.

(** The seconds slept, in all. *)
Fixpoint slept (evs : list event) : Z :=
  match evs with
  | [] => 0
  | Sleep secs :: rest => secs + slept rest
  | _ :: rest => slept rest
  end.

(** The duration shown by a line 84, if the event is one. *)
Definition done_value (e : event) : option Q :=
  match e with
  | Print _ (Str s :: Fix3 d :: _) _ =>
      if (s =? label_of (msg_done 0))%string then Some d else None
  | _ => None
  end.

(** The durations shown trial by trial, in order. *)
Fixpoint done_values (evs : list event) : list Q :=
  match evs with
  | [] => []
  | e :: rest =>
      match done_value e with
      | Some d => d :: done_values rest
      | None => done_values rest
      end
  end.

(** Did the process run and exit with status 0? *)
Definition succeeded (o : spawn_outcome) : bool :=
  match o with
  | Exited rc => (rc =? 0)%Z
  | _ => false
  end.


(** The pair [i/n] shown by a line 63, if the event is one. *)
Definition trial_number (e : event) : option (Z * Z) :=
  match e with
  | Print _ (Str s :: Num i :: Str _ :: Num n :: _) _ =>
      if (s =? label_of (msg_trial 0 0))%string then Some (i, n) else None
  | _ => None
  end.

(** The pairs [i/n] shown, in order. *)
Fixpoint trial_numbers (evs : list event) : list (Z * Z) :=
  match evs with
  | [] => []
  | e :: rest =>
      match trial_number e with
      | Some p => p :: trial_numbers rest
      | None => trial_numbers rest
      end
  end.

(** ** Example hosts *)

(** A clock that ticks once per reading. *)
Definition ticking (n : nat) : Q := inject_Z (Z.of_nat n).

(** Every launch succeeds. *)
Definition host_ok : host := mkHost ticking (fun _ => Exited 0).

(** The launch numbered [k] exits with status [rc]; the others succeed. *)
Definition host_exit_at (k : nat) (rc : Z) : host :=
  mkHost ticking (fun n => if (n =? k)%nat then Exited rc else Exited 0).

(** The launch numbered [k] raises; the others succeed. *)
Definition host_raise_at (k : nat) (o : spawn_outcome) : host :=
  mkHost ticking (fun n => if (n =? k)%nat then o else Exited 0).

(** [docker] is there but may not be executed: every launch raises
    PermissionError. *)
Definition host_denied : host :=
  mkHost ticking (fun _ => Failed "[Errno 13] Permission denied: 'docker'").

(** The launch numbered [k] finds no binary; the others succeed. *)
Definition host_missing_at (k : nat) : host :=
  mkHost ticking
    (fun n => if (n =? k)%nat
              then NotFound "[Errno 2] No such file or directory: 'docker'"
              else Exited 0).

(** A square root good to six decimals, enough to run the examples. *)
Definition sqrt6 (q : Q) : Q :=
  Qmake (Z.sqrt (Qnum q * Z.pos (Qden q) * 1000000000000))
        (Qden q * 1000000).

(** * Properties *)

(** ** Command construction *)

Lemma truthy_iff (o : option string) :
  truthy o = true <-> exists s, o = Some s /\ s <> "".
Proof.
  destruct o as [s|]; cbn.
  - rewrite negb_true_iff, String.eqb_neq. split.
    + intros Hs. exists s. split; [reflexivity | exact Hs].
    + intros [s' [Heq Hs]]. injection Heq as ->. exact Hs.
  - split; [discriminate | intros [s [Heq _]]; discriminate].
Qed.

(** C2. The command holds the pair [-e LS_JAVA_OPTS=<opts>] exactly when
    the tuning flags are a non-empty string; the pair then sits right
    before the image name; and the command always ends with the image name
    followed by [-e] and the pipeline definition, the image name not
    occurring earlier. *)
Theorem build_command_env_flag (jvm_opts : option string) :
  (env_flag_index (build_command jvm_opts) <> None <->
   exists s, jvm_opts = Some s /\ s <> "") /\
  (forall s, jvm_opts = Some s -> s <> "" ->
     env_flag_index (build_command jvm_opts) = Some 4%nat /\
     nth_error (build_command jvm_opts) 5 = Some ("LS_JAVA_OPTS=" ++ s) /\
     index_of LOGSTASH_DOCKER_IMAGE (build_command jvm_opts) = Some 6%nat) /\
  (exists pre,
     build_command jvm_opts =
       (pre ++ [LOGSTASH_DOCKER_IMAGE; "-e"; LOGSTASH_PIPELINE_CONFIG])%list /\
     ~ In LOGSTASH_DOCKER_IMAGE pre).
Proof.
  rewrite <- truthy_iff.
  destruct jvm_opts as [[|c s]|].
  - (* Some "" *)
    split; [|split].
    + cbn. split; [intros H; now elim H | discriminate].
    + intros s Hs Hne. injection Hs as <-. now elim Hne.
    + exists ["docker"; "run"; "--rm"; "-i"]. split; [reflexivity|].
      cbn. intros H. repeat (destruct H as [H|H]; [discriminate H|]). exact H.
  - split; [|split].
    + cbn. split; [reflexivity | discriminate].
    + intros s' Hs _. injection Hs as <-. cbn. repeat split.
    + exists ["docker"; "run"; "--rm"; "-i"; "-e";
              "LS_JAVA_OPTS=" ++ String c s].
      split; [reflexivity|].
      cbn. intros H. repeat (destruct H as [H|H]; [discriminate H|]). exact H.
  - split; [|split].
    + cbn. split; [intros H; now elim H | discriminate].
    + intros s Hs. discriminate Hs.
    + exists ["docker"; "run"; "--rm"; "-i"]. split; [reflexivity|].
      cbn. intros H. repeat (destruct H as [H|H]; [discriminate H|]). exact H.
Qed.

(** ** Quoting and reading back *)


Lemma append_nil_r (s : string) : s ++ "" = s.
Proof. induction s as [|c s IH]; cbn; [reflexivity | now rewrite IH]. Qed.

Lemma append_assoc (a b c : string) : (a ++ b) ++ c = a ++ (b ++ c).
Proof. induction a as [|x a IH]; cbn; [reflexivity | now rewrite IH]. Qed.

Lemma append_snoc (w : string) (c : ascii) (s : string) :
  (w ++ String c "") ++ s = w ++ String c s.
Proof. now rewrite append_assoc. Qed.

(** A character [shlex.quote] leaves alone is one the reader takes as
    plain. *)
Lemma safe_is_plain (c : ascii) :
  shell_safe c = true ->
  Ascii.eqb c " " = false /\ Ascii.eqb c "039" = false /\
  Ascii.eqb c "034" = false /\ mem_char c plain_chars = true.
Proof.
  destruct c as [[] [] [] [] [] [] [] []]; vm_compute; intros H;
    try discriminate H; repeat split.
Qed.

Lemma split_safe (s : string) : forall w rest,
  all_chars shell_safe s = true ->
  split_from Unquoted (Some w) (s ++ rest) =
  split_from Unquoted (Some (w ++ s)) rest.
Proof.
  induction s as [|c s IH]; intros w rest Hs.
  - cbn. now rewrite append_nil_r.
  - cbn [all_chars] in Hs. apply andb_prop in Hs. destruct Hs as [Hc Hs].
    destruct (safe_is_plain c Hc) as [H1 [H2 [H3 H4]]].
    cbn [append split_from]. rewrite H1, H2, H3, H4.
    unfold push. cbn [word_of]. rewrite (IH _ rest Hs), append_snoc.
    reflexivity.
Qed.

Lemma split_single (s : string) : forall w rest,
  split_from InSingle (Some w) (escape_squotes s ++ squote ++ rest) =
  split_from Unquoted (Some (w ++ s)) rest.
Proof.
  induction s as [|c s IH]; intros w rest.
  - cbn. now rewrite append_nil_r.
  - cbn [escape_squotes].
    destruct (Ascii.eqb c "039") eqn:Hc.
    + apply Ascii.eqb_eq in Hc. subst c.
      cbn. rewrite (IH _ rest), append_snoc. reflexivity.
    + cbn [append split_from]. rewrite Hc. unfold push. cbn [word_of].
      rewrite (IH _ rest), append_snoc. reflexivity.
Qed.

Lemma split_quoted (s rest : string) :
  split_from Unquoted None (shlex_quote s ++ rest) =
  split_from Unquoted (Some s) rest.
Proof.
  unfold shlex_quote.
  destruct (String.eqb_spec s "") as [->|Hne].
  - reflexivity.
  - destruct (all_chars shell_safe s) eqn:Hs.
    + destruct s as [|c s]; [now elim Hne|].
      cbn [all_chars] in Hs. apply andb_prop in Hs. destruct Hs as [Hc Hs].
      destruct (safe_is_plain c Hc) as [H1 [H2 [H3 H4]]].
      cbn [append split_from]. rewrite H1, H2, H3, H4.
      unfold push. cbn [word_of append]. now rewrite (split_safe s _ rest Hs).
    + change (squote ++ escape_squotes s ++ squote)
        with (String "039" (escape_squotes s ++ squote)).
      cbn [append]. rewrite append_assoc. cbn [split_from].
      change (Ascii.eqb "039" " ") with false.
      change (Ascii.eqb "039" "039") with true.
      cbn [word_of]. apply (split_single s "" rest).
Qed.

(** Reading back the quoted command line gives the arguments. *)
Lemma shell_words_quote (args : list string) :
  shell_words (join " " (map shlex_quote args)) = Some args.
Proof.
  unfold shell_words. induction args as [|a args IH]; [reflexivity|].
  destruct args as [|b args].
  - cbn [map join]. rewrite <- (append_nil_r (shlex_quote a)), split_quoted.
    reflexivity.
  - change (join " " (map shlex_quote (a :: b :: args)))
      with (shlex_quote a ++ " " ++ join " " (map shlex_quote (b :: args))).
    rewrite split_quoted. cbn [append split_from].
    cbn. cbn in IH. rewrite IH. reflexivity.
Qed.

(** ** The trial loop *)

Lemma advance_0 w : advance 0 0 [] w = w.
Proof.
  destruct w as [r l t]. unfold advance. cbn.
  now rewrite !Nat.add_0_r, app_nil_r.
Qed.

Lemma advance_advance a b evs a' b' evs' w :
  advance a' b' evs' (advance a b evs w) =
  advance (a + a') (b + b') (evs ++ evs') w.
Proof.
  unfold advance. cbn. now rewrite !Nat.add_assoc, app_assoc.
Qed.

Section Loop.

Variable h : host.
Variable NUM_RUNS : nat.
Variable base_command : list string.

Ltac run_trial H :=
  unfold trial, bind, try_except, perf_counter, subprocess_run, print,
    print_to, sleep, emit, ret, raise, advance;
  cbn; rewrite H; cbn; rewrite <- ?app_assoc; cbn; rewrite ?Nat.add_1_r.

Lemma trial_ok i ds w :
  docker h (launches w) = Exited 0 ->
  trial h NUM_RUNS base_command i ds w =
    (Ok (Fallthrough (ds ++ [measured h (reads w)])),
     advance 2 1 (trial_events_ok h NUM_RUNS base_command i (reads w)) w).
Proof.
  intros H. run_trial H.
  replace (reads w + 2)%nat with (S (S (reads w))) by lia. reflexivity.
Qed.

Lemma trial_exit i ds w rc :
  docker h (launches w) = Exited rc -> rc <> 0%Z ->
  trial h NUM_RUNS base_command i ds w =
    (Ok (Returned ds),
     advance 1 1 (trial_events_exit h NUM_RUNS base_command i (reads w) rc) w).
Proof.
  intros H Hrc. run_trial H.
  apply Z.eqb_neq in Hrc. rewrite Hrc. cbn. rewrite <- ?app_assoc.
  reflexivity.
Qed.

Lemma trial_not_found i ds w msg :
  docker h (launches w) = NotFound msg ->
  trial h NUM_RUNS base_command i ds w =
    (Ok (Returned ds),
     advance 1 1
       (trial_events_raise h NUM_RUNS base_command i (reads w)
          (FileNotFoundError msg)) w).
Proof. intros H. run_trial H. reflexivity. Qed.

Lemma trial_failed i ds w msg :
  docker h (launches w) = Failed msg ->
  trial h NUM_RUNS base_command i ds w =
    (Ok (Returned ds),
     advance 1 1
       (trial_events_raise h NUM_RUNS base_command i (reads w)
          (OtherException msg)) w).
Proof. intros H. run_trial H. reflexivity. Qed.

Lemma all_succeed_S l n :
  all_succeed h l (S n) ->
  docker h l = Exited 0 /\ all_succeed h (l + 1) n.
Proof.
  intros H. split.
  - rewrite <- (Nat.add_0_r l). apply H. lia.
  - intros j Hj. replace (l + 1 + j)%nat with (l + S j)%nat by lia.
    apply H. lia.
Qed.

(** All trials succeed: the loop falls through with one duration each. *)
Lemma trials_all_ok indices : forall ds w,
  all_succeed h (launches w) (length indices) ->
  trials h NUM_RUNS base_command indices ds w =
    (Ok (Fallthrough (ds ++ durations_ok h (length indices) (reads w))),
     advance (2 * length indices) (length indices)
             (run_ok h NUM_RUNS base_command indices (reads w)) w).
Proof.
  induction indices as [|i rest IH]; intros ds w Hall.
  - cbn. unfold ret. now rewrite app_nil_r, advance_0.
  - apply all_succeed_S in Hall. destruct Hall as [H0 Hrest].
    cbn [trials]. unfold bind at 1. rewrite (trial_ok _ _ _ H0).
    rewrite IH by exact Hrest.
    rewrite advance_advance. cbn [length durations_ok run_ok].
    rewrite <- app_assoc. cbn [app reads advance].
    replace (reads w + 2)%nat with (S (S (reads w))) by lia.
    f_equal. f_equal; lia.
Qed.

(** The loop over [pre ++ post] is the loop over [pre], then, unless it
    returned, the loop over [post]. *)
Lemma trials_app pre post : forall ds w,
  trials h NUM_RUNS base_command (pre ++ post) ds w =
    match trials h NUM_RUNS base_command pre ds w with
    | (Ok (Fallthrough ds'), w') =>
        trials h NUM_RUNS base_command post ds' w'
    | other => other
    end.
Proof.
  induction pre as [|i rest IH]; intros ds w.
  - reflexivity.
  - cbn [app trials]. unfold bind.
    destruct (trial h NUM_RUNS base_command i ds w) as [[[ds'|ds']|e] w'].
    + apply IH.
    + reflexivity.
    + reflexivity.
Qed.

(** A first failing launch after [length pre] successes: the loop returns
    there, with the durations of the successes. *)
Lemma trials_abort pre i post : forall ds w,
  all_succeed h (launches w) (length pre) ->
  docker h (launches w + length pre) <> Exited 0 ->
  trials h NUM_RUNS base_command (pre ++ i :: post) ds w =
    (Ok (Returned (ds ++ durations_ok h (length pre) (reads w))),
     advance (2 * length pre + 1) (length pre + 1)
       (run_ok h NUM_RUNS base_command pre (reads w) ++
        abort_events h NUM_RUNS base_command i (reads w + 2 * length pre)
          (docker h (launches w + length pre))) w).
Proof.
  intros ds w Hall Hbad.
  rewrite trials_app, (trials_all_ok pre ds w Hall).
  cbn [trials]. unfold bind.
  set (w1 := advance _ _ _ w).
  assert (Hl : launches w1 = (launches w + length pre)%nat) by reflexivity.
  rewrite <- Hl in *.
  destruct (docker h (launches w1)) as [rc|msg|msg] eqn:Ho.
  - assert (Hrc : rc <> 0%Z) by (intros ->; now apply Hbad).
    rewrite (trial_exit _ _ _ _ Ho Hrc).
    unfold w1. rewrite advance_advance. reflexivity.
  - rewrite (trial_not_found _ _ _ _ Ho).
    unfold w1. rewrite advance_advance. reflexivity.
  - rewrite (trial_failed _ _ _ _ Ho).
    unfold w1. rewrite advance_advance. reflexivity.
Qed.

(** Either every one of [n] launches succeeds, or there is a first one
    that does not. *)
Lemma first_failure l n :
  all_succeed h l n \/
  exists k, (k < n)%nat /\ all_succeed h l k /\
            docker h (l + k) <> Exited 0.
Proof.
  induction n as [|n IH].
  - left. intros j Hj. lia.
  - destruct IH as [Hall | [k [Hk [Hall Hbad]]]].
    + destruct (docker h (l + n)) as [rc|msg|msg] eqn:Ho.
      * destruct (Z.eq_dec rc 0) as [->|Hrc].
        -- left. intros j Hj.
           destruct (Nat.eq_dec j n) as [->|Hne]; [exact Ho|].
           apply Hall. lia.
        -- right. exists n. repeat split; [lia | exact Hall |].
           rewrite Ho. intros Heq. injection Heq as ->. now apply Hrc.
      * right. exists n. repeat split; [lia | exact Hall |].
        rewrite Ho. discriminate.
      * right. exists n. repeat split; [lia | exact Hall |].
        rewrite Ho. discriminate.
    + right. exists k. repeat split; [lia | exact Hall | exact Hbad].
Qed.

Lemma seq_split (a n k : nat) :
  (k < n)%nat ->
  seq a n = (seq a k ++ (a + k)%nat :: seq (S (a + k)) (n - S k))%list.
Proof.
  intros Hk.
  replace n with (k + S (n - S k))%nat at 1 by lia.
  rewrite seq_app. reflexivity.
Qed.

End Loop.

(** ** Rounding to binary64 *)


Lemma pow2_pos (e : Z) : 0 < 2 ^ e.
Proof. apply Qpower_0_lt. reflexivity. Qed.

Lemma pow2_plus (a b : Z) : 2 ^ (a + b) == 2 ^ a * 2 ^ b.
Proof. apply Qpower_plus. discriminate. Qed.

Lemma pow2_le (a b : Z) : (a <= b)%Z -> 2 ^ a <= 2 ^ b.
Proof. intros H. apply Qpower_le_compat_l; [exact H | discriminate]. Qed.

Lemma pow2_lt_inv (a b : Z) : 2 ^ a < 2 ^ b -> (a < b)%Z.
Proof. intros H. apply (Qpower_lt_compat_l_inv 2); [exact H | reflexivity]. Qed.

Lemma pow2_Z (a : Z) : (0 <= a)%Z -> inject_Z (2 ^ a) == 2 ^ a.
Proof. intros H. apply (Zpower_Qpower 2 a H). Qed.

Lemma rnd_even_cases (x : Q) :
  (rnd_even x = Qfloor x /\ x - inject_Z (Qfloor x) <= 1 # 2) \/
  (rnd_even x = (Qfloor x + 1)%Z /\ 1 # 2 <= x - inject_Z (Qfloor x)).
Proof.
  unfold rnd_even.
  destruct (Qcompare_spec (x - inject_Z (Qfloor x)) (1 # 2)) as [H|H|H].
  - destruct (Z.even (Qfloor x)); [left | right]; split;
      try reflexivity; rewrite H; apply Qle_refl.
  - left. split; [reflexivity | now apply Qlt_le_weak].
  - right. split; [reflexivity | now apply Qlt_le_weak].
Qed.

Lemma rnd_even_ge (x : Q) (z : Z) : inject_Z z <= x -> (z <= rnd_even x)%Z.
Proof.
  intros H. apply Qfloor_resp_le in H. rewrite Qfloor_Z in H.
  destruct (rnd_even_cases x) as [[-> _] | [-> _]]; lia.
Qed.

Lemma rnd_even_le (x : Q) (z : Z) : x <= inject_Z z -> (rnd_even x <= z)%Z.
Proof.
  intros H. pose proof (Qfloor_resp_le _ _ H) as Hf. rewrite Qfloor_Z in Hf.
  destruct (rnd_even_cases x) as [[-> _] | [-> Hr]]; [lia|].
  destruct (Z.eq_dec (Qfloor x) z) as [Heq|Hne]; [|lia].
  exfalso. rewrite Heq in Hr.
  assert (Hx : x - inject_Z z <= 0).
  { apply Qle_minus_iff. setoid_replace (0 + - (x - inject_Z z)) with (inject_Z z + - x) by ring.
    now apply -> Qle_minus_iff. }
  assert (Habs : (1 # 2) <= 0) by (eapply Qle_trans; eassumption).
  unfold Qle in Habs. cbn in Habs. lia.
Qed.

Lemma half_contra (rx ry : Q) :
  rx <= ry -> 1 # 2 <= rx -> ry <= 1 # 2 -> 1 # 2 < rx \/ ry < 1 # 2 -> False.
Proof.
  intros Hr H1 H2 [H|H]; apply (Qlt_irrefl (1 # 2)).
  - eapply Qlt_le_trans; [exact H|]. eapply Qle_trans; eassumption.
  - eapply Qle_lt_trans; [|exact H]. eapply Qle_trans; eassumption.
Qed.

Lemma rnd_even_mono (x y : Q) : x <= y -> (rnd_even x <= rnd_even y)%Z.
Proof.
  intros H. pose proof (Qfloor_resp_le _ _ H) as Hf.
  destruct (Z.eq_dec (Qfloor x) (Qfloor y)) as [Heq|Hne].
  - unfold rnd_even. rewrite <- Heq.
    assert (Hr : x - inject_Z (Qfloor x) <= y - inject_Z (Qfloor x)).
    { apply Qplus_le_compat; [exact H | apply Qle_refl]. }
    destruct (Qcompare_spec (x - inject_Z (Qfloor x)) (1 # 2)) as [Hx|Hx|Hx];
      destruct (Qcompare_spec (y - inject_Z (Qfloor x)) (1 # 2)) as [Hy|Hy|Hy];
      try (destruct (Z.even (Qfloor x))); try lia; exfalso;
      (eapply half_contra;
       [ exact Hr
       | first [ apply Qlt_le_weak; exact Hx | rewrite Hx; apply Qle_refl ]
       | first [ apply Qlt_le_weak; exact Hy | rewrite Hy; apply Qle_refl ]
       | first [ left; exact Hx | right; exact Hy ] ]).
  - destruct (rnd_even_cases x) as [[-> _] | [-> _]];
      destruct (rnd_even_cases y) as [[-> _] | [-> _]]; lia.
Qed.

Lemma Qlog2_spec (q : Q) :
  0 < q -> 2 ^ Qlog2 q <= q /\ q < 2 ^ (Qlog2 q + 1).
Proof.
  intros Hq. destruct q as [n d]. unfold Qlog2. cbn [Qnum Qden].
  assert (Hn : (0 < n)%Z) by (unfold Qlt in Hq; cbn in Hq; lia).
  set (a := Z.log2 n). set (b := Z.log2 (Z.pos d)).
  assert (Ha : (0 <= a)%Z) by apply Z.log2_nonneg.
  assert (Hb : (0 <= b)%Z) by apply Z.log2_nonneg.
  destruct (Z.log2_spec n Hn) as [Hn1 Hn2]. fold a in Hn1, Hn2.
  destruct (Z.log2_spec (Z.pos d) (Pos2Z.is_pos d)) as [Hd1 Hd2].
  fold b in Hd1, Hd2.
  assert (Hqd : n # d == inject_Z n / inject_Z (Z.pos d)) by apply Qmake_Qdiv.
  assert (Hdpos : 0 < inject_Z (Z.pos d)) by reflexivity.
  (* bounds in Q *)
  assert (Hup : n # d < 2 ^ (a - b + 1)).
  { rewrite Hqd. apply Qlt_shift_div_r; [exact Hdpos|].
    apply Qlt_le_trans with (2 ^ (a + 1)).
    - rewrite <- pow2_Z by lia. rewrite <- Zlt_Qlt.
      replace (a + 1)%Z with (Z.succ a) by lia. exact Hn2.
    - replace (a + 1)%Z with ((a - b + 1) + b)%Z by lia. rewrite pow2_plus.
      apply Qmult_le_l; [apply pow2_pos|].
      rewrite <- pow2_Z by lia. rewrite <- Zle_Qle. exact Hd1. }
  assert (Hlow : 2 ^ (a - b - 1) <= n # d).
  { rewrite Hqd. apply Qle_shift_div_l; [exact Hdpos|].
    apply Qle_trans with (2 ^ a).
    - replace a with ((a - b - 1) + (b + 1))%Z at 2 by lia. rewrite pow2_plus.
      apply Qmult_le_l; [apply pow2_pos|].
      rewrite <- pow2_Z by lia. rewrite <- Zle_Qle.
      replace (b + 1)%Z with (Z.succ b) by lia. lia.
    - rewrite <- pow2_Z by lia. rewrite <- Zle_Qle. exact Hn1. }
  destruct (Qle_bool (2 ^ (a - b)) (n # d)) eqn:Hc.
  - apply Qle_bool_iff in Hc. split; assumption.
  - split; [exact Hlow|].
    replace (a - b - 1 + 1)%Z with (a - b)%Z by lia.
    apply Qnot_le_lt. intros Hle. apply Qle_bool_iff in Hle. congruence.
Qed.

Lemma Qlog2_mono (x y : Q) : 0 < x -> x <= y -> (Qlog2 x <= Qlog2 y)%Z.
Proof.
  intros Hx Hxy.
  assert (Hy : 0 < y) by (eapply Qlt_le_trans; eassumption).
  destruct (Qlog2_spec x Hx) as [Hlx _].
  destruct (Qlog2_spec y Hy) as [_ Huy].
  assert (H : 2 ^ Qlog2 x < 2 ^ (Qlog2 y + 1)).
  { eapply Qle_lt_trans; [exact Hlx|]. eapply Qle_lt_trans; eassumption. }
  apply pow2_lt_inv in H. lia.
Qed.

Lemma float_exp_mono (x y : Q) : 0 < x -> x <= y -> (float_exp x <= float_exp y)%Z.
Proof.
  intros Hx Hxy. unfold float_exp.
  pose proof (Qlog2_mono x y Hx Hxy). lia.
Qed.

Lemma scaled_lt (q : Q) : 0 < q -> q / 2 ^ float_exp q < 2 ^ 53.
Proof.
  intros Hq. destruct (Qlog2_spec q Hq) as [_ Hu].
  apply Qlt_shift_div_r; [apply pow2_pos|].
  rewrite <- pow2_plus. eapply Qlt_le_trans; [exact Hu|].
  apply pow2_le. unfold float_exp. lia.
Qed.

Lemma scaled_ge (q : Q) :
  0 < q -> (-1074 < float_exp q)%Z -> 2 ^ 52 <= q / 2 ^ float_exp q.
Proof.
  intros Hq He. destruct (Qlog2_spec q Hq) as [Hl _].
  apply Qle_shift_div_l; [apply pow2_pos|].
  rewrite <- pow2_plus. eapply Qle_trans; [|exact Hl].
  apply pow2_le. unfold float_exp in *. lia.
Qed.

Lemma round_pos_nonneg (q : Q) : 0 < q -> 0 <= round_pos q.
Proof.
  intros Hq. unfold round_pos.
  apply Qmult_le_0_compat; [|apply Qlt_le_weak, pow2_pos].
  change 0 with (inject_Z 0). rewrite <- Zle_Qle. apply rnd_even_ge.
  apply Qle_shift_div_l; [apply pow2_pos|].
  rewrite Qmult_0_l. now apply Qlt_le_weak.
Qed.

Lemma round_pos_mono (x y : Q) : 0 < x -> x <= y -> round_pos x <= round_pos y.
Proof.
  intros Hx Hxy.
  assert (Hy : 0 < y) by (eapply Qlt_le_trans; eassumption).
  pose proof (float_exp_mono x y Hx Hxy) as He.
  unfold round_pos.
  destruct (Z.eq_dec (float_exp x) (float_exp y)) as [Heq|Hne].
  - rewrite <- Heq. apply Qmult_le_compat_r; [|apply Qlt_le_weak, pow2_pos].
    rewrite <- Zle_Qle. apply rnd_even_mono.
    apply Qmult_le_compat_r; [exact Hxy|].
    apply Qlt_le_weak, Qinv_lt_0_compat, pow2_pos.
  - apply Qle_trans with (2 ^ 53 * 2 ^ float_exp x).
    + apply Qmult_le_compat_r; [|apply Qlt_le_weak, pow2_pos].
      rewrite <- (pow2_Z 53) by lia. rewrite <- Zle_Qle. apply rnd_even_le.
      rewrite (pow2_Z 53) by lia. apply Qlt_le_weak, scaled_lt, Hx.
    + apply Qle_trans with (2 ^ 52 * 2 ^ float_exp y).
      * rewrite <- !pow2_plus. apply pow2_le. lia.
      * apply Qmult_le_compat_r; [|apply Qlt_le_weak, pow2_pos].
        rewrite <- (pow2_Z 52) by lia. rewrite <- Zle_Qle. apply rnd_even_ge.
        rewrite (pow2_Z 52) by lia. apply scaled_ge; [exact Hy|].
        unfold float_exp in *. lia.
Qed.

Lemma round64_cases (q : Q) :
  (q == 0 /\ round64 q = 0) \/
  (0 < q /\ 0 < Qred q /\ round64 q = round_pos (Qred q)) \/
  (q < 0 /\ 0 < - Qred q /\ round64 q = - round_pos (- Qred q)).
Proof.
  unfold round64. pose proof (Qred_correct q) as Hr.
  destruct (Qred q) as [n d] eqn:Hq. cbn [Qnum].
  destruct n as [|p|p].
  - left. split; [|reflexivity]. rewrite <- Hr. reflexivity.
  - right. left. assert (H : 0 < Z.pos p # d) by reflexivity.
    split; [now rewrite <- Hr|]. split; [exact H | reflexivity].
  - right. right. assert (H : Z.neg p # d < 0) by reflexivity.
    split; [now rewrite <- Hr|]. split; reflexivity.
Qed.


Lemma round64_nonneg (q : Q) : 0 <= q -> 0 <= round64 q.
Proof.
  intros Hq. destruct (round64_cases q) as [[_ ->] | [[_ [Hp ->]] | [Hn _]]].
  - apply Qle_refl.
  - now apply round_pos_nonneg.
  - exfalso. apply (Qlt_irrefl 0). eapply Qle_lt_trans; eassumption.
Qed.

Lemma round64_nonpos (q : Q) : q <= 0 -> round64 q <= 0.
Proof.
  intros Hq. destruct (round64_cases q) as [[_ ->] | [[Hp _] | [_ [Hn ->]]]].
  - apply Qle_refl.
  - exfalso. apply (Qlt_irrefl 0). eapply Qlt_le_trans; eassumption.
  - change 0 with (- 0). apply Qopp_le_compat. now apply round_pos_nonneg.
Qed.

Lemma round64_mono (x y : Q) : x <= y -> round64 x <= round64 y.
Proof.
  intros Hxy.
  destruct (Qlt_le_dec 0 x) as [Hx|Hx].
  - (* both positive *)
    assert (Hy : 0 < y) by exact (Qlt_le_trans 0 x y Hx Hxy).
    destruct (round64_cases x) as [[H0 _] | [[_ [Hrx ->]] | [Hn _]]].
    + exfalso. rewrite H0 in Hx. apply (Qlt_irrefl _ Hx).
    + destruct (round64_cases y) as [[H0 _] | [[_ [Hry ->]] | [Hn _]]].
      * exfalso. rewrite H0 in Hy. apply (Qlt_irrefl _ Hy).
      * apply round_pos_mono; [exact Hrx|]. now rewrite !Qred_correct.
      * exfalso. apply (Qlt_irrefl 0 (Qlt_trans 0 y 0 Hy Hn)).
    + exfalso. apply (Qlt_irrefl 0 (Qlt_trans 0 x 0 Hx Hn)).
  - destruct (Qlt_le_dec y 0) as [Hy|Hy].
    + (* both negative *)
      assert (Hx' : x < 0) by exact (Qle_lt_trans x y 0 Hxy Hy).
      destruct (round64_cases x) as [[H0 _] | [[Hp _] | [_ [Hrx ->]]]].
      * exfalso. rewrite H0 in Hx'. apply (Qlt_irrefl _ Hx').
      * exfalso. apply (Qlt_irrefl 0 (Qlt_trans 0 x 0 Hp Hx')).
      * destruct (round64_cases y) as [[H0 _] | [[Hp _] | [_ [Hry ->]]]].
        -- exfalso. rewrite H0 in Hy. apply (Qlt_irrefl _ Hy).
        -- exfalso. apply (Qlt_irrefl 0 (Qlt_trans 0 y 0 Hp Hy)).
        -- apply Qopp_le_compat. apply round_pos_mono; [exact Hry|].
           rewrite !Qred_correct. now apply Qopp_le_compat.
    + eapply Qle_trans; [apply round64_nonpos, Hx | apply round64_nonneg, Hy].
Qed.














(** ** Statistics *)

Lemma Qlt_bool_iff (x y : Q) : Qlt_bool x y = true <-> x < y.
Proof.
  unfold Qlt_bool. rewrite negb_true_iff, <- not_true_iff_false, Qle_bool_iff.
  split; [apply Qnot_le_lt | apply Qlt_not_le].
Qed.

Lemma min_loop_spec (rest : list Q) : forall cur,
  In (min_loop cur rest) (cur :: rest) /\
  min_loop cur rest <= cur /\
  Forall (fun d => min_loop cur rest <= d) rest.
Proof.
  induction rest as [|x rest IH]; intros cur; cbn [min_loop].
  - repeat split; [now left | apply Qle_refl | constructor].
  - destruct (IH (if Qlt_bool x cur then x else cur)) as [Hin [Hle Hall]].
    destruct (Qlt_bool x cur) eqn:Hlt.
    + apply Qlt_bool_iff in Hlt. repeat split.
      * destruct Hin as [<-|Hin]; [right; now left | right; now right].
      * eapply Qle_trans; [exact Hle | now apply Qlt_le_weak].
      * constructor; assumption.
    + assert (Hge : cur <= x).
      { apply Qnot_lt_le. intros Hc. apply Qlt_bool_iff in Hc. congruence. }
      repeat split.
      * destruct Hin as [<-|Hin]; [now left | right; now right].
      * exact Hle.
      * constructor; [eapply Qle_trans; eassumption | assumption].
Qed.

Lemma max_loop_spec (rest : list Q) : forall cur,
  In (max_loop cur rest) (cur :: rest) /\
  cur <= max_loop cur rest /\
  Forall (fun d => d <= max_loop cur rest) rest.
Proof.
  induction rest as [|x rest IH]; intros cur; cbn [max_loop].
  - repeat split; [now left | apply Qle_refl | constructor].
  - destruct (IH (if Qlt_bool cur x then x else cur)) as [Hin [Hle Hall]].
    destruct (Qlt_bool cur x) eqn:Hlt.
    + apply Qlt_bool_iff in Hlt. repeat split.
      * destruct Hin as [<-|Hin]; [right; now left | right; now right].
      * eapply Qle_trans; [apply Qlt_le_weak; exact Hlt | exact Hle].
      * constructor; assumption.
    + assert (Hge : x <= cur).
      { apply Qnot_lt_le. intros Hc. apply Qlt_bool_iff in Hc. congruence. }
      repeat split.
      * destruct Hin as [<-|Hin]; [now left | right; now right].
      * exact Hle.
      * constructor; [eapply Qle_trans; eassumption | assumption].
Qed.

Lemma fold_left_Qplus (xs : list Q) : forall a,
  fold_left Qplus xs a == a + total xs.
Proof.
  induction xs as [|x xs IH]; intros a; cbn.
  - now rewrite Qplus_0_r.
  - rewrite IH. now rewrite Qplus_assoc.
Qed.

Lemma Qsum_total (xs : list Q) : Qsum xs == total xs.
Proof. unfold Qsum. rewrite fold_left_Qplus. apply Qplus_0_l. Qed.

Lemma Qlen_nonzero (xs : list Q) : xs <> [] -> ~ Qlen xs == 0.
Proof.
  intros Hne. destruct xs as [|x xs]; [now elim Hne|].
  unfold Qlen, Qeq. cbn. lia.
Qed.

Section Summary.

Variable fsqrt : Q -> Q.

(** On a non-empty list nothing raises, and each field holds what its
    line of main.py computes. *)
Lemma summarize_cons (x : Q) (rest : list Q) :
  summarize fsqrt (x :: rest) =
    Ok (mkSummary (min_loop x rest) (max_loop x rest)
          (round64 (Qsum (x :: rest) / Qlen (x :: rest)))
          (match rest with
           | [] => 0
           | _ => fsqrt (sample_variance (x :: rest))
           end)).
Proof.
  unfold summarize, py_min, py_max, mean, stdev, obind.
  destruct rest as [|y rest]; reflexivity.
Qed.

End Summary.

(** ** The reporter and one configuration *)

Lemma advance_emits dr dl evs evs' w :
  advance dr dl evs' (emits evs w) = advance dr dl (evs ++ evs') w.
Proof. unfold advance, emits. cbn. now rewrite app_assoc. Qed.

Lemma emits_advance dr dl evs evs' w :
  emits evs' (advance dr dl evs w) = advance dr dl (evs ++ evs') w.
Proof. unfold advance, emits. cbn. now rewrite app_assoc. Qed.

Section Measure.

Variable h : host.
Variable fsqrt : Q -> Q.
Variable NUM_RUNS : nat.

Lemma report_nil w :
  report fsqrt [] w = (Ok tt, emits [Print Stdout msg_no_data nl] w).
Proof. reflexivity. Qed.

Lemma report_cons x rest w :
  exists s,
    summarize fsqrt (x :: rest) = Ok s /\
    report fsqrt (x :: rest) w =
      (Ok tt, emits (results (length (x :: rest)) s) w).
Proof.
  eexists. split; [apply summarize_cons|].
  unfold report, bind, lift. rewrite summarize_cons.
  unfold print, print_to, sleep, emit, emits. cbn [reads launches trace].
  rewrite <- !app_assoc. reflexivity.
Qed.

(** The reporter never raises. *)
Lemma report_total ds w :
  exists evs, report fsqrt ds w = (Ok tt, emits evs w).
Proof.
  destruct ds as [|x rest].
  - eexists. apply report_nil.
  - destruct (report_cons x rest w) as [s [_ Hr]]. eexists. exact Hr.
Qed.

(** [measure_startup_time] is its header, the loop, and then the
    reporter unless the loop returned. *)
Lemma measure_unfold description jvm_opts w :
  measure_startup_time h fsqrt NUM_RUNS description jvm_opts w =
    match trials h NUM_RUNS (build_command jvm_opts) (seq 1 NUM_RUNS) []
            (emits (header description jvm_opts) w) with
    | (Ok (Fallthrough durations), w') => report fsqrt durations w'
    | (Ok (Returned _), w') => (Ok tt, w')
    | (Raise e, w') => (Raise e, w')
    end.
Proof.
  unfold measure_startup_time, bind at 1 2 3 4 5, print, print_to, emit.
  cbn [reads launches trace]. rewrite <- !app_assoc. cbn [app].
  fold (emits (header description jvm_opts) w). unfold bind, ret.
  destruct (trials _ _ _ _ _ _) as [[[ds|ds]|e] w']; reflexivity.
Qed.

(** Every trial succeeds: the reporter runs on one duration per trial. *)
Lemma measure_all_ok description jvm_opts w :
  all_succeed h (launches w) NUM_RUNS ->
  measure_startup_time h fsqrt NUM_RUNS description jvm_opts w =
    report fsqrt (durations_ok h NUM_RUNS (reads w))
      (advance (2 * NUM_RUNS) NUM_RUNS
         (header description jvm_opts ++
          run_ok h NUM_RUNS (build_command jvm_opts) (seq 1 NUM_RUNS)
            (reads w)) w).
Proof.
  intros Hall. rewrite measure_unfold.
  rewrite trials_all_ok by (rewrite length_seq; exact Hall).
  rewrite length_seq, advance_emits. reflexivity.
Qed.

(** A first failing launch after [k] successes: the function returns from
    the handler, and the reporter is not run. *)
Lemma measure_abort description jvm_opts w k :
  (k < NUM_RUNS)%nat ->
  all_succeed h (launches w) k ->
  docker h (launches w + k) <> Exited 0 ->
  measure_startup_time h fsqrt NUM_RUNS description jvm_opts w =
    (Ok tt,
     advance (2 * k + 1) (k + 1)
       (header description jvm_opts ++
        run_ok h NUM_RUNS (build_command jvm_opts) (seq 1 k) (reads w) ++
        abort_events h NUM_RUNS (build_command jvm_opts) (S k)
             (reads w + 2 * k)
          (docker h (launches w + k))) w).
Proof.
  intros Hk Hall Hbad. rewrite measure_unfold.
  rewrite (seq_split 1 NUM_RUNS k Hk).
  pose proof (trials_abort h NUM_RUNS (build_command jvm_opts)
                (seq 1 k) (1 + k) (seq (S (1 + k)) (NUM_RUNS - S k)) []
                (emits (header description jvm_opts) w)) as Ht.
  rewrite length_seq in Ht. cbn [launches reads emits] in Ht.
  rewrite (Ht Hall Hbad), advance_emits. reflexivity.
Qed.

End Measure.

(** ** The statistics reporter *)

Section Reporter.

Variable fsqrt : Q -> Q.

Lemma nonempty_cons (ds : list Q) :
  ds <> [] -> exists x rest, ds = x :: rest.
Proof.
  destruct ds as [|x rest]; [intros H; now elim H | intros _; eauto].
Qed.

(** C1. On a non-empty list of durations the reporter raises nothing and
    prints the lines of [results] for a summary [s].  With exactly one
    duration, [statistics.stdev] (which would raise) is not called and the
    standard deviation printed is zero; with two or more it is what
    [statistics.stdev] returns, the square root of the sample variance. *)
Theorem stdev_only_from_two_samples (durations : list Q) (w : world) :
  durations <> [] ->
  exists s,
    summarize fsqrt durations = Ok s /\
    report fsqrt durations w =
      (Ok tt, emits (results (length durations) s) w) /\
    (length durations = 1%nat ->
       std_dev s = 0 /\ exists e, stdev fsqrt durations = Raise e) /\
    ((2 <= length durations)%nat ->
       stdev fsqrt durations = Ok (std_dev s) /\
       std_dev s = fsqrt (sample_variance durations)).
Proof.
  intros Hne. destruct (nonempty_cons durations Hne) as [x [rest ->]].
  destruct (report_cons fsqrt x rest w) as [s [Hs Hr]].
  exists s. split; [exact Hs | split; [exact Hr|]].
  rewrite summarize_cons in Hs. injection Hs as <-.
  destruct rest as [|y rest]; cbn [length std_dev].
  - split; [intros _ | intros H2; lia].
    split; [reflexivity | eexists; reflexivity].
  - split; [intros H1; discriminate H1 | intros _].
    split; reflexivity.
Qed.



(** C6. On the empty list the reporter only prints that there is no valid
    data and returns.  It never raises, whereas computing the statistics
    of the empty list does: so they are not computed.  With no trial
    configured, [measure_startup_time] prints its header and that line. *)
Theorem no_statistics_of_empty :
  (forall w,
     report fsqrt [] w = (Ok tt, emits [Print Stdout msg_no_data nl] w)) /\
  (forall durations w,
     exists evs, report fsqrt durations w = (Ok tt, emits evs w)) /\
  (exists e, summarize fsqrt [] = Raise e) /\
  (exists e, mean [] = Raise e) /\
  (forall h description jvm_opts w,
     measure_startup_time h fsqrt 0 description jvm_opts w =
       (Ok tt,
        emits (header description jvm_opts ++ [Print Stdout msg_no_data nl])
              w)).
Proof.
  split; [|split; [|split; [|split]]].
  - intros w. apply report_nil.
  - intros ds w. apply report_total.
  - eexists. reflexivity.
  - eexists. reflexivity.
  - intros h description jvm_opts w. rewrite measure_unfold.
    cbn [seq trials]. unfold ret. rewrite report_nil.
    unfold emits. cbn [reads launches trace]. now rewrite <- app_assoc.
Qed.

End Reporter.

(** ** One configuration *)

Lemma split_at {A} (xs : list A) (k : nat) :
  (k < length xs)%nat ->
  exists pre x post, xs = (pre ++ x :: post)%list /\ length pre = k.
Proof.
  revert k. induction xs as [|a xs IH]; intros k Hk; cbn in Hk; [lia|].
  destruct k as [|k].
  - exists [], a, xs. split; reflexivity.
  - destruct (IH k) as [pre [x [post [-> Hlen]]]]; [lia|].
    exists (a :: pre), x, post. split; [reflexivity | cbn; now rewrite Hlen].
Qed.

Section Configuration.

Variable h : host.
Variable fsqrt : Q -> Q.
Variable NUM_RUNS : nat.

Lemma length_durations_ok n : forall r,
  length (durations_ok h n r) = n.
Proof.
  induction n as [|n IH]; intros r; cbn; [reflexivity | now rewrite IH].
Qed.

(** The loop never raises: it falls through after [length indices]
    successes, or returns at the first launch that does not succeed. *)
Lemma trials_cases base_command indices w :
  (all_succeed h (launches w) (length indices) /\
   trials h NUM_RUNS base_command indices [] w =
     (Ok (Fallthrough (durations_ok h (length indices) (reads w))),
      advance (2 * length indices) (length indices)
        (run_ok h NUM_RUNS base_command indices (reads w)) w)) \/
  (exists k pre i post,
     indices = (pre ++ i :: post)%list /\ length pre = k /\
     all_succeed h (launches w) k /\
     docker h (launches w + k) <> Exited 0 /\
     trials h NUM_RUNS base_command indices [] w =
       (Ok (Returned (durations_ok h k (reads w))),
        advance (2 * k + 1) (k + 1)
          (run_ok h NUM_RUNS base_command pre (reads w) ++
           abort_events h NUM_RUNS base_command i (reads w + 2 * k)
             (docker h (launches w + k)))
          w)).
Proof.
  destruct (first_failure h (launches w) (length indices))
    as [Hall | [k [Hk [Hall Hbad]]]].
  - left. split; [exact Hall|]. now rewrite trials_all_ok.
  - right. destruct (split_at indices k Hk) as [pre [i [post [-> Hlen]]]].
    exists k, pre, i, post. subst k. repeat split; try assumption.
    now rewrite trials_abort.
Qed.

Lemma Forall_run_ok (P : event -> Prop) base_command :
  (forall i r, Forall P (trial_events_ok h NUM_RUNS base_command i r)) ->
  forall indices r, Forall P (run_ok h NUM_RUNS base_command indices r).
Proof.
  intros Hblock. induction indices as [|i rest IH]; intros r; cbn [run_ok].
  - constructor.
  - apply Forall_app. split; [apply Hblock | apply IH].
Qed.

(** One call of [measure_startup_time] never raises.  Either every trial
    succeeds and the reporter follows, or the call returns at the first
    launch that does not succeed. *)
Lemma measure_cases description jvm_opts w :
  (all_succeed h (launches w) NUM_RUNS /\
   exists tail,
     measure_startup_time h fsqrt NUM_RUNS description jvm_opts w =
       (Ok tt,
        advance (2 * NUM_RUNS) NUM_RUNS
          (header description jvm_opts ++
           run_ok h NUM_RUNS (build_command jvm_opts) (seq 1 NUM_RUNS)
             (reads w) ++ tail) w) /\
     ((NUM_RUNS = 0%nat /\ tail = [Print Stdout msg_no_data nl]) \/
      (exists s,
         summarize fsqrt (durations_ok h NUM_RUNS (reads w)) = Ok s /\
         tail = results NUM_RUNS s))) \/
  (exists k,
     (k < NUM_RUNS)%nat /\
     all_succeed h (launches w) k /\
     docker h (launches w + k) <> Exited 0 /\
     measure_startup_time h fsqrt NUM_RUNS description jvm_opts w =
       (Ok tt,
        advance (2 * k + 1) (k + 1)
          (header description jvm_opts ++
           run_ok h NUM_RUNS (build_command jvm_opts) (seq 1 k) (reads w) ++
           abort_events h NUM_RUNS (build_command jvm_opts) (S k)
             (reads w + 2 * k)
             (docker h (launches w + k))) w)).
Proof.
  destruct (first_failure h (launches w) NUM_RUNS)
    as [Hall | [k [Hk [Hall Hbad]]]].
  - left. split; [exact Hall|].
    rewrite (measure_all_ok h fsqrt NUM_RUNS description jvm_opts w Hall).
    destruct (durations_ok h NUM_RUNS (reads w)) as [|x rest] eqn:Hds.
    + exists [Print Stdout msg_no_data nl]. split.
      * rewrite report_nil, emits_advance, <- app_assoc. reflexivity.
      * left. split; [|reflexivity].
        rewrite <- (length_durations_ok NUM_RUNS (reads w)), Hds. reflexivity.
    + destruct (report_cons fsqrt x rest
                  (advance (2 * NUM_RUNS) NUM_RUNS
                     (header description jvm_opts ++
                      run_ok h NUM_RUNS (build_command jvm_opts)
                        (seq 1 NUM_RUNS) (reads w)) w)) as [s [Hs Hr]].
      assert (Hlen : length (x :: rest) = NUM_RUNS)
        by (rewrite <- Hds; apply length_durations_ok).
      exists (results NUM_RUNS s). split.
      * rewrite Hr, Hlen, emits_advance, <- app_assoc. reflexivity.
      * right. exists s. split; [exact Hs | reflexivity].
  - right. exists k. repeat split; try assumption.
    now apply measure_abort.
Qed.

(** What a line says is decided by the text it starts with. *)
Lemma says_false (t : text) (e : event) file end_ :
  says t e = false -> e <> Print file t end_.
Proof.
  intros Hs ->. cbn in Hs. now rewrite String.eqb_refl in Hs.
Qed.

Lemma not_said (t : text) (evs : list event) file end_ :
  Forall (fun e => says t e = false) evs -> ~ In (Print file t end_) evs.
Proof.
  intros Hall Hin. rewrite Forall_forall in Hall.
  apply (says_false t _ file end_ (Hall _ Hin)). reflexivity.
Qed.

(** The line for no valid data is printed by the reporter only. *)
Lemma no_data_outside_report description jvm_opts indices r :
  Forall (fun e => says msg_no_data e = false)
    (header description jvm_opts ++
     run_ok h NUM_RUNS (build_command jvm_opts) indices r).
Proof.
  apply Forall_app. split.
  - repeat constructor.
  - apply Forall_run_ok. intros i r'. repeat constructor.
Qed.

Lemma no_data_not_in_results n s :
  Forall (fun e => says msg_no_data e = false) (results n s).
Proof. repeat constructor. Qed.

Lemma no_data_not_in_abort base_command i r o :
  Forall (fun e => says msg_no_data e = false)
    (abort_events h NUM_RUNS base_command i r o).
Proof. destruct o; repeat constructor. Qed.

(** C10. When the loop of [measure_startup_time] falls through to the
    reporter, the collection holds one duration per configured trial; with
    at least one trial configured it is not empty, so the call ends with
    the results of the reporter.  And however the call ends, the line for
    no valid data is not among its events. *)
Theorem reporter_sees_all_trials description jvm_opts w durations w' :
  (1 <= NUM_RUNS)%nat ->
  trials h NUM_RUNS (build_command jvm_opts) (seq 1 NUM_RUNS) []
    (emits (header description jvm_opts) w) =
    (Ok (Fallthrough durations), w') ->
  length durations = NUM_RUNS /\
  durations <> [] /\
  (exists s,
     summarize fsqrt durations = Ok s /\
     measure_startup_time h fsqrt NUM_RUNS description jvm_opts w =
       (Ok tt, emits (results NUM_RUNS s) w')) /\
  (exists dr dl evs,
     measure_startup_time h fsqrt NUM_RUNS description jvm_opts w =
       (Ok tt, advance dr dl evs w) /\
     ~ In (Print Stdout msg_no_data nl) evs).
Proof.
  intros Hn Ht.
  assert (Hlen : length durations = NUM_RUNS).
  { destruct (trials_cases (build_command jvm_opts) (seq 1 NUM_RUNS)
                (emits (header description jvm_opts) w))
      as [[_ Heq] | [k [pre [i [post [_ [_ [_ [_ Heq]]]]]]]]];
      rewrite Heq in Ht; [|discriminate Ht].
    injection Ht as <- _. rewrite length_durations_ok. apply length_seq. }
  split; [exact Hlen|].
  assert (Hne : durations <> []).
  { intros Hnil. rewrite Hnil in Hlen. cbn in Hlen. lia. }
  split; [exact Hne|]. split.
  - destruct (nonempty_cons _ Hne) as [x [rest Hds]].
    destruct (report_cons fsqrt x rest w') as [s [Hs Hr]].
    exists s. rewrite measure_unfold, Ht, Hds. split; [exact Hs|].
    rewrite Hr, <- Hds, Hlen. reflexivity.
  - destruct (measure_cases description jvm_opts w)
      as [[_ [tail [Hm Htail]]] | [k [_ [_ [_ Hm]]]]];
      do 3 eexists; (split; [exact Hm|]); rewrite app_assoc;
      apply not_said, Forall_app; (split; [apply no_data_outside_report|]).
    + destruct Htail as [[H0 _] | [s [_ ->]]]; [lia|].
      apply no_data_not_in_results.
    + apply no_data_not_in_abort.
Qed.

Lemma durations_ok_nonneg n : forall r,
  (forall j, (j < n)%nat ->
     clock h (r + 2 * j) <= clock h (S (r + 2 * j))) ->
  Forall (fun d => 0 <= d) (durations_ok h n r).
Proof.
  induction n as [|n IH]; intros r Hmono; cbn [durations_ok].
  - constructor.
  - constructor.
    + unfold measured, fsub. apply round64_nonneg. apply -> Qle_minus_iff.
      specialize (Hmono 0%nat). rewrite Nat.mul_0_r, Nat.add_0_r in Hmono.
      apply Hmono. lia.
    + apply IH. intros j Hj.
      replace (S (S r) + 2 * j)%nat with (r + 2 * S j)%nat by lia.
      apply Hmono. lia.
Qed.

(** C7. If each end reading of the clock is at least the start reading
    taken just before it, the loop ends (it never raises) with a collection
    of durations that are all non-negative, whether it falls through or
    returns early. *)
Theorem durations_nonnegative base_command indices w :
  (forall j, (j < length indices)%nat ->
     clock h (reads w + 2 * j) <= clock h (S (reads w + 2 * j))) ->
  exists x w',
    trials h NUM_RUNS base_command indices [] w = (Ok x, w') /\
    Forall (fun d => 0 <= d) (durations_of x).
Proof.
  intros Hmono.
  destruct (trials_cases base_command indices w)
    as [[_ Heq] | [k [pre [i [post [Hidx [Hlen [_ [_ Heq]]]]]]]]];
    do 2 eexists; (split; [exact Heq|]); cbn [durations_of];
    apply durations_ok_nonneg.
  - exact Hmono.
  - intros j Hj. apply Hmono. rewrite Hidx, length_app, Hlen. lia.
Qed.

Lemma no_statistics_outside_report description jvm_opts indices r :
  Forall (fun e => prints_statistics e = false)
    (header description jvm_opts ++
     run_ok h NUM_RUNS (build_command jvm_opts) indices r).
Proof.
  apply Forall_app. split.
  - repeat constructor.
  - apply Forall_run_ok. intros i r'. repeat constructor.
Qed.

Lemma no_statistics_in_abort base_command i r o :
  Forall (fun e => prints_statistics e = false)
    (abort_events h NUM_RUNS base_command i r o).
Proof. destruct o; repeat constructor. Qed.

(** The next configuration starts from the world the previous one
    leaves. *)
Lemma measure_all_cons description jvm_opts rest w w' :
  measure_startup_time h fsqrt NUM_RUNS description jvm_opts w = (Ok tt, w') ->
  measure_all h fsqrt NUM_RUNS ((jvm_opts, description) :: rest) w =
  measure_all h fsqrt NUM_RUNS rest w'.
Proof. intros Hm. cbn [measure_all]. unfold bind. now rewrite Hm. Qed.

(** C3. Let trial [k + 1] of a configuration be the first whose process
    exits with a non-zero status [rc].  Then the call returns normally
    after [k + 1] launches; what it printed is the header, the [k]
    successful trials and the failed one, which ends with the line that
    carries the exit code [rc] and the line that carries the command
    line: the arguments of the command, each quoted by [shlex.quote] and
    joined by spaces, so that a shell reads the arguments back from
    it; none of the lines of statistics is printed; and the
    remaining configurations are measured from the world this call
    leaves. *)
Theorem nonzero_exit_aborts_configuration description jvm_opts rest w k rc :
  (k < NUM_RUNS)%nat ->
  all_succeed h (launches w) k ->
  docker h (launches w + k) = Exited rc ->
  rc <> 0%Z ->
  exists evs line,
    measure_startup_time h fsqrt NUM_RUNS description jvm_opts w =
      (Ok tt, advance (2 * k + 1) (k + 1) evs w) /\
    evs =
      (header description jvm_opts ++
       run_ok h NUM_RUNS (build_command jvm_opts) (seq 1 k) (reads w) ++
       [ Print Stdout (msg_trial (S k) NUM_RUNS) "";
         Clock (clock h (reads w + 2 * k));
         Run (build_command jvm_opts) (Some hello);
         Print Stdout
           [Str (nl ++ "エラー: Dockerコンテナの実行に失敗しました (終了コード: ");
            Num rc; Str ")"] nl;
         Print Stdout [Str "コマンド: "; Str line] nl ])%list /\
    line = join " " (map shlex_quote (build_command jvm_opts)) /\
    shell_words line = Some (build_command jvm_opts) /\
    Forall (fun e => prints_statistics e = false) evs /\
    measure_all h fsqrt NUM_RUNS ((jvm_opts, description) :: rest) w =
      measure_all h fsqrt NUM_RUNS rest (advance (2 * k + 1) (k + 1) evs w).
Proof.
  intros Hk Hall Ho Hrc.
  assert (Hbad : docker h (launches w + k) <> Exited 0).
  { rewrite Ho. intros Heq. injection Heq as ->. now apply Hrc. }
  pose proof (measure_abort h fsqrt NUM_RUNS description jvm_opts w k
                Hk Hall Hbad) as Hm.
  pose proof (no_statistics_in_abort (build_command jvm_opts) (S k)
                (reads w + 2 * k) (docker h (launches w + k))) as Hquiet.
  rewrite Ho in Hm, Hquiet. cbn [abort_events] in Hm, Hquiet.
  exists (header description jvm_opts ++
          run_ok h NUM_RUNS (build_command jvm_opts) (seq 1 k) (reads w) ++
          trial_events_exit h NUM_RUNS (build_command jvm_opts) (S k)
            (reads w + 2 * k) rc)%list,
         (join " " (map shlex_quote (build_command jvm_opts))).
  split; [exact Hm|]. split; [reflexivity|]. split; [reflexivity|].
  split; [apply shell_words_quote|]. split.
  - rewrite app_assoc. apply Forall_app. split;
      [apply no_statistics_outside_report | exact Hquiet].
  - apply measure_all_cons. exact Hm.
Qed.

(** C9. Let trial [k + 1] of a configuration be the first that does not
    succeed, its launch raising an exception [e] (not a non-zero exit)
    with the text [msg].  Then the call returns normally after [k + 1]
    launches; what it printed is the header, the [k] successful trials and
    the failed one, which ends with the line for an unexpected error
    carrying [msg]; none of the lines of statistics is printed; and the
    remaining configurations are measured from the world this call
    leaves. *)
Theorem unexpected_exception_aborts_configuration
    description jvm_opts rest w k e :
  (k < NUM_RUNS)%nat ->
  all_succeed h (launches w) k ->
  raised_by (docker h (launches w + k)) = Some e ->
  exists evs msg,
    (e = FileNotFoundError msg \/ e = OtherException msg) /\
    measure_startup_time h fsqrt NUM_RUNS description jvm_opts w =
      (Ok tt, advance (2 * k + 1) (k + 1) evs w) /\
    evs =
      (header description jvm_opts ++
       run_ok h NUM_RUNS (build_command jvm_opts) (seq 1 k) (reads w) ++
       [ Print Stdout (msg_trial (S k) NUM_RUNS) "";
         Clock (clock h (reads w + 2 * k));
         Run (build_command jvm_opts) (Some hello);
         Print Stdout
           [Str (nl ++ "予期せぬエラーが発生しました: "); Str msg] nl ])%list /\
    Forall (fun e => prints_statistics e = false) evs /\
    measure_all h fsqrt NUM_RUNS ((jvm_opts, description) :: rest) w =
      measure_all h fsqrt NUM_RUNS rest (advance (2 * k + 1) (k + 1) evs w).
Proof.
  intros Hk Hall Ho.
  assert (Hbad : docker h (launches w + k) <> Exited 0).
  { intros Heq. rewrite Heq in Ho. discriminate Ho. }
  pose proof (measure_abort h fsqrt NUM_RUNS description jvm_opts w k
                Hk Hall Hbad) as Hm.
  pose proof (no_statistics_in_abort (build_command jvm_opts) (S k)
                (reads w + 2 * k) (docker h (launches w + k))) as Hquiet.
  assert (Hev : exists msg,
            (e = FileNotFoundError msg \/ e = OtherException msg) /\
            abort_events h NUM_RUNS (build_command jvm_opts) (S k)
              (reads w + 2 * k) (docker h (launches w + k)) =
            [ Print Stdout (msg_trial (S k) NUM_RUNS) "";
              Clock (clock h (reads w + 2 * k));
              Run (build_command jvm_opts) (Some hello);
              Print Stdout
                [Str (nl ++ "予期せぬエラーが発生しました: "); Str msg] nl ]).
  { destruct (docker h (launches w + k)) as [rc|msg|msg]; cbn in Ho;
      try discriminate Ho; injection Ho as <-; exists msg;
      (split; [|reflexivity]); [left | right]; reflexivity. }
  destruct Hev as [msg [He Hev]]. rewrite Hev in Hm, Hquiet.
  eexists. exists msg. split; [exact He|].
  split; [exact Hm|]. split; [reflexivity|]. split.
  - rewrite app_assoc. apply Forall_app. split;
      [apply no_statistics_outside_report | exact Hquiet].
  - apply measure_all_cons. exact Hm.
Qed.

End Configuration.

(** ** The whole program *)

Section Program.

Variable h : host.
Variable fsqrt : Q -> Q.
Variable NUM_RUNS : nat.

(** Measuring any list of configurations never raises. *)
Lemma measure_all_total sets : forall w,
  exists dr dl evs,
    measure_all h fsqrt NUM_RUNS sets w = (Ok tt, advance dr dl evs w).
Proof.
  induction sets as [|[opts desc] rest IH]; intros w.
  - exists 0%nat, 0%nat, []. cbn. unfold ret. now rewrite advance_0.
  - assert (Hm : exists dr dl evs,
              measure_startup_time h fsqrt NUM_RUNS desc opts w =
                (Ok tt, advance dr dl evs w)).
    { destruct (measure_cases h fsqrt NUM_RUNS desc opts w)
        as [[_ [tail [Hm _]]] | [k [_ [_ [_ Hm]]]]];
        do 3 eexists; exact Hm. }
    destruct Hm as [dr [dl [evs Hm]]].
    rewrite (measure_all_cons h fsqrt NUM_RUNS desc opts rest w _ Hm).
    destruct (IH (advance dr dl evs w)) as [dr' [dl' [evs' Hrest]]].
    rewrite Hrest, advance_advance. do 3 eexists. reflexivity.
Qed.

Ltac run_check H :=
  unfold check_docker, try_except, bind, subprocess_run, print_to, emit,
    ret, raise;
  rewrite H; cbn.

Lemma check_docker_ok w :
  docker h (launches w) = Exited 0 ->
  check_docker h w = (Ok true, advance 0 1 [Run ["docker"; "info"] None] w).
Proof.
  intros H. run_check H. unfold advance. now rewrite Nat.add_0_r, Nat.add_1_r.
Qed.

Lemma check_docker_no_daemon w rc :
  docker h (launches w) = Exited rc -> rc <> 0%Z ->
  check_docker h w =
    (Ok false,
     advance 0 1
       [ Run ["docker"; "info"] None;
         Print Stderr msg_no_daemon nl;
         Print Stderr msg_hint nl ] w).
Proof.
  intros H Hrc. run_check H. apply Z.eqb_neq in Hrc. rewrite Hrc. cbn.
  unfold advance. now rewrite Nat.add_0_r, Nat.add_1_r, <- !app_assoc.
Qed.

Lemma check_docker_not_found w msg :
  docker h (launches w) = NotFound msg ->
  check_docker h w =
    (Ok false,
     advance 0 1
       [ Run ["docker"; "info"] None; Print Stderr msg_no_docker nl ] w).
Proof.
  intros H. run_check H.
  unfold advance. now rewrite Nat.add_0_r, Nat.add_1_r, <- !app_assoc.
Qed.

Lemma check_docker_failed w msg :
  docker h (launches w) = Failed msg ->
  check_docker h w =
    (Raise (OtherException msg),
     advance 0 1 [Run ["docker"; "info"] None] w).
Proof.
  intros H. run_check H. unfold advance. now rewrite Nat.add_0_r, Nat.add_1_r.
Qed.

(** [main] prints two lines, checks for docker, and if the check returns
    true prints seven more lines, measures, and prints the last line. *)
Lemma main_unfold sets w :
  exists banner preamble,
    Forall (fun e => is_stdout e = true) banner /\
    Forall (fun e => is_stdout e = true) preamble /\
    main h fsqrt NUM_RUNS sets w =
      match check_docker h (emits banner w) with
      | (Ok true, w1) =>
          match measure_all h fsqrt NUM_RUNS sets (emits preamble w1) with
          | (Ok _, w2) => (Ok tt, emits [Print Stdout msg_all_done nl] w2)
          | (Raise e, w2) => (Raise e, w2)
          end
      | (Ok false, w1) => (Raise (SystemExit 1), w1)
      | (Raise e, w1) => (Raise e, w1)
      end.
Proof.
  do 2 eexists. split; [|split].
  3: {
    unfold main, bind at 1 2 3, print at 1 2, print_to, emit.
    cbn [reads launches trace]. rewrite <- !app_assoc. cbn [app].
    match goal with
    | |- context [check_docker h (mkWorld _ _ (trace w ++ ?b))] =>
        change (mkWorld (reads w) (launches w) (trace w ++ b))
          with (emits b w);
        match goal with
        | |- _ = match check_docker h (emits ?ev w) with _ => _ end =>
            unify ev b
        end
    end.
    destruct (check_docker h _) as [[[|]|e] w1]; [|reflexivity|reflexivity].
    cbn [negb]. unfold ret at 1.
    unfold bind, print, print_to, emit.
    cbn [reads launches trace]. rewrite <- !app_assoc. cbn [app].
    match goal with
    | |- context [measure_all _ _ _ _ (mkWorld _ _ (trace w1 ++ ?p))] =>
        change (mkWorld (reads w1) (launches w1) (trace w1 ++ p))
          with (emits p w1);
        match goal with
        | |- _ = match measure_all _ _ _ _ (emits ?ev w1) with _ => _ end =>
            unify ev p
        end
    end.
    destruct (measure_all _ _ _ _ _) as [[[]|e] w2]; reflexivity. }
  - repeat constructor.
  - repeat constructor.
Qed.

Lemma stdout_not_run evs :
  Forall (fun e => is_stdout e = true) evs -> filter is_run evs = [].
Proof.
  induction 1 as [|[[|] t e| | |] evs H _ IH]; cbn; try discriminate H.
  - reflexivity.
  - exact IH.
Qed.

Lemma stdout_not_stderr evs :
  Forall (fun e => is_stdout e = true) evs -> filter is_stderr evs = [].
Proof.
  induction 1 as [|[[|] t e| | |] evs H _ IH]; cbn; try discriminate H.
  - reflexivity.
  - exact IH.
Qed.

(** C4, amended.  What the program does is decided by the first launch,
    [docker info].  If the binary is missing, or if it exits with a
    non-zero status, the program prints the matching message on stderr and
    exits with status 1, [docker info] being the only process launched.
    If it exits with status 0, every configuration is measured, the last
    line is printed and the exit status is 0.  If the launch raises any
    other exception, nothing catches it: the program ends on that
    exception, with nothing of its own on stderr and no trial run. *)
Theorem availability_check_decides_exit sets :
  (forall msg,
     docker h 0 = NotFound msg ->
     exists w',
       run h fsqrt NUM_RUNS sets = (Exit 1, w') /\
       filter is_stderr (trace w') = [Print Stderr msg_no_docker nl] /\
       filter is_run (trace w') = [Run ["docker"; "info"] None]) /\
  (forall rc,
     docker h 0 = Exited rc -> rc <> 0%Z ->
     exists w',
       run h fsqrt NUM_RUNS sets = (Exit 1, w') /\
       filter is_stderr (trace w') =
         [Print Stderr msg_no_daemon nl; Print Stderr msg_hint nl] /\
       filter is_run (trace w') = [Run ["docker"; "info"] None]) /\
  (docker h 0 = Exited 0 ->
     exists w1 w2,
       launches w1 = 1%nat /\
       filter is_run (trace w1) = [Run ["docker"; "info"] None] /\
       measure_all h fsqrt NUM_RUNS sets w1 = (Ok tt, w2) /\
       run h fsqrt NUM_RUNS sets =
         (Exit 0, emits [Print Stdout msg_all_done nl] w2)) /\
  (forall msg,
     docker h 0 = Failed msg ->
     exists w',
       run h fsqrt NUM_RUNS sets = (Traceback (OtherException msg), w') /\
       filter is_stderr (trace w') = [] /\
       filter is_run (trace w') = [Run ["docker"; "info"] None]).
Proof.
  unfold run, run_from.
  destruct (main_unfold sets initial) as [banner [preamble [Hb [Hp ->]]]].
  pose proof (stdout_not_run banner Hb) as Hbr.
  pose proof (stdout_not_stderr banner Hb) as Hbe.
  split; [|split; [|split]].
  - intros msg Ho.
    rewrite (check_docker_not_found (emits banner initial) msg Ho).
    eexists. split; [reflexivity|].
    cbn [trace advance emits initial app].
    rewrite !filter_app, Hbr, Hbe. split; reflexivity.
  - intros rc Ho Hrc.
    rewrite (check_docker_no_daemon (emits banner initial) rc Ho Hrc).
    eexists. split; [reflexivity|].
    cbn [trace advance emits initial app].
    rewrite !filter_app, Hbr, Hbe. split; reflexivity.
  - intros Ho.
    rewrite (check_docker_ok (emits banner initial) Ho).
    set (w1 := emits preamble _).
    destruct (measure_all_total sets w1) as [dr [dl [evs Hm]]].
    rewrite Hm. exists w1. eexists. split; [reflexivity|].
    split; [|split; [exact Hm | reflexivity]].
    unfold w1. cbn [trace advance emits initial app].
    rewrite !filter_app, Hbr, (stdout_not_run preamble Hp). reflexivity.
  - intros msg Ho.
    rewrite (check_docker_failed (emits banner initial) msg Ho).
    eexists. split; [reflexivity|].
    cbn [trace advance emits initial app].
    rewrite !filter_app, Hbr, Hbe. split; reflexivity.
Qed.

End Program.

(** ** Pacing *)

Lemma pacing_app (xs ys : list event) :
  pacing (xs ++ ys) = (pacing xs ++ pacing ys)%list.
Proof. apply filter_app. Qed.

(** Between two launches with no launch in between, what [pacing] keeps
    are the sleeps. *)
Lemma pacing_no_run (mid : list event) :
  Forall (fun e => is_run e = false) mid ->
  Forall (fun e => is_run e = false) (pacing mid) /\
  pacing mid = filter is_sleep mid.
Proof.
  induction 1 as [|[f t e|c i|s|t] mid H _ [IH1 IH2]]; cbn.
  - split; [constructor | reflexivity].
  - split; assumption.
  - discriminate H.
  - split; [constructor; [reflexivity | assumption] | f_equal; exact IH2].
  - split; assumption.
Qed.

(** In [k] paced launches followed by at most one more event, two
    launches with no launch in between are one sleep of one second
    apart. *)
Lemma paced_between cmd k : forall tail pre mid post c1 i1 c2 i2,
  (length tail <= 1)%nat ->
  (paced_trials cmd k ++ tail)%list =
    (pre ++ Run c1 i1 :: mid ++ Run c2 i2 :: post)%list ->
  Forall (fun e => is_run e = false) mid ->
  mid = [Sleep 1].
Proof.
  induction k as [|k IH]; intros tail pre mid post c1 i1 c2 i2 Ht Heq Hmid.
  - cbn in Heq. apply (f_equal (@length event)) in Heq.
    rewrite length_app in Heq. cbn in Heq. rewrite length_app in Heq.
    cbn in Heq. lia.
  - cbn [paced_trials app] in Heq.
    destruct pre as [|a pre].
    + cbn in Heq. injection Heq as _ _ Heq.
      destruct mid as [|b mid]; cbn in Heq; [discriminate Heq|].
      injection Heq as <- Heq.
      destruct mid as [|b' mid]; [reflexivity|].
      exfalso. apply Forall_inv_tail, Forall_inv in Hmid.
      destruct k as [|k].
      * cbn in Heq. apply (f_equal (@length event)) in Heq.
        cbn in Heq. rewrite length_app in Heq. cbn in Heq. lia.
      * cbn in Heq. injection Heq as <- _. discriminate Hmid.
    + cbn in Heq. injection Heq as _ Heq.
      destruct pre as [|a' pre]; cbn in Heq; [discriminate Heq|].
      injection Heq as _ Heq.
      exact (IH tail pre mid post c1 i1 c2 i2 Ht Heq Hmid).
Qed.

Section Pacing.

Variable h : host.
Variable fsqrt : Q -> Q.
Variable NUM_RUNS : nat.

Lemma pacing_run_ok base_command indices : forall r,
  pacing (run_ok h NUM_RUNS base_command indices r) =
  paced_trials base_command (length indices).
Proof.
  induction indices as [|i rest IH]; intros r; cbn; [reflexivity|].
  now rewrite IH.
Qed.

Lemma pacing_abort base_command i r o :
  o <> Exited 0 ->
  pacing (abort_events h NUM_RUNS base_command i r o) =
  [Run base_command (Some hello)].
Proof. intros _. destruct o; reflexivity. Qed.

(** C8. In one call of [measure_startup_time], the launches and sleeps
    are the trials, each followed by a sleep of one second (the last
    trial, if it fails, by nothing), and then at most the final sleep of
    the reporter.  So between any two consecutive launches the program
    does nothing but print and sleep once, for one second. *)
Theorem one_second_between_trials description jvm_opts w :
  exists dr dl evs k tail,
    measure_startup_time h fsqrt NUM_RUNS description jvm_opts w =
      (Ok tt, advance dr dl evs w) /\
    (k <= NUM_RUNS)%nat /\
    pacing evs = (paced_trials (build_command jvm_opts) k ++ tail)%list /\
    (tail = [] \/ tail = [Sleep 5] \/
     tail = [Run (build_command jvm_opts) (Some hello)]) /\
    (forall pre c1 i1 mid c2 i2 post,
       evs = (pre ++ Run c1 i1 :: mid ++ Run c2 i2 :: post)%list ->
       Forall (fun e => is_run e = false) mid ->
       filter is_sleep mid = [Sleep 1]).
Proof.
  assert (Hshape : exists dr dl evs k tail,
    measure_startup_time h fsqrt NUM_RUNS description jvm_opts w =
      (Ok tt, advance dr dl evs w) /\
    (k <= NUM_RUNS)%nat /\
    pacing evs = (paced_trials (build_command jvm_opts) k ++ tail)%list /\
    (tail = [] \/ tail = [Sleep 5] \/
     tail = [Run (build_command jvm_opts) (Some hello)])).
  { destruct (measure_cases h fsqrt NUM_RUNS description jvm_opts w)
      as [[_ [tail [Hm Htail]]] | [k [Hk [_ [Hbad Hm]]]]].
    - destruct Htail as [[H0 ->] | [s [_ ->]]].
      + do 3 eexists. exists NUM_RUNS, []. split; [exact Hm|].
        split; [lia|]. split; [|now left].
        rewrite !pacing_app, pacing_run_ok, length_seq. reflexivity.
      + do 3 eexists. exists NUM_RUNS, [Sleep 5]. split; [exact Hm|].
        split; [lia|]. split; [|right; now left].
        rewrite !pacing_app, pacing_run_ok, length_seq. reflexivity.
    - do 3 eexists. exists k, [Run (build_command jvm_opts) (Some hello)].
      split; [exact Hm|]. split; [lia|]. split; [|right; now right].
      rewrite !pacing_app, pacing_run_ok, length_seq, pacing_abort by exact Hbad.
      reflexivity. }
  destruct Hshape as [dr [dl [evs [k [tail [Hm [Hk [Hp Htail]]]]]]]].
  exists dr, dl, evs, k, tail. repeat split; try assumption.
  intros pre c1 i1 mid c2 i2 post Hevs Hmid.
  destruct (pacing_no_run mid Hmid) as [Hmid' <-].
  apply (paced_between (build_command jvm_opts) k tail (pacing pre)
           (pacing mid) (pacing post) c1 i1 c2 i2).
  - destruct Htail as [-> | [-> | ->]]; cbn; lia.
  - rewrite <- Hp, Hevs, pacing_app. cbn [pacing filter].
    rewrite filter_app. reflexivity.
  - exact Hmid'.
Qed.

End Pacing.

(** * The properties at work *)

Lemma ticking_monotone (r : nat) : ticking r <= ticking (S r).
Proof. unfold ticking. rewrite <- Zle_Qle. lia. Qed.

(** One sample: the standard deviation printed is zero. *)
Lemma stdev_of_one_sample :
  exists s, summarize sqrt6 [3 # 2] = Ok s /\ std_dev s = 0.
Proof.
  destruct (stdev_only_from_two_samples sqrt6 [3 # 2] initial)
    as [s [Hs [_ [H1 _]]]]; [discriminate|].
  exists s. split; [exact Hs | apply H1; reflexivity].
Defined.



(** The command for the tuning flags main.py ships with. *)
Lemma command_with_flags :
  env_flag_index (build_command (Some "-Xmx1g")) = Some 4%nat /\
  index_of LOGSTASH_DOCKER_IMAGE (build_command (Some "-Xmx1g")) = Some 6%nat.
Proof.
  destruct (build_command_env_flag (Some "-Xmx1g")) as [_ [H _]].
  destruct (H "-Xmx1g") as [Hi [_ Hj]]; [reflexivity | discriminate|].
  split; assumption.
Defined.

(** Ten successful trials: ten durations reach the reporter. *)
Lemma ten_trials_ten_durations :
  length (durations_ok host_ok 10 0) = 10%nat /\
  durations_ok host_ok 10 0 <> [].
Proof.
  destruct (reporter_sees_all_trials host_ok sqrt6 10
              "1. ベースライン" None initial
              (durations_ok host_ok 10 0)
              (advance 20 10
                 (header "1. ベースライン" None ++
                  run_ok host_ok 10 (build_command None) (seq 1 10) 0)
                 initial)) as [Hlen [Hne _]].
  - lia.
  - vm_compute. reflexivity.
  - split; assumption.
Defined.

(** With a ticking clock every duration collected is non-negative. *)
Lemma ticking_durations_nonnegative :
  exists x w',
    trials host_ok 10 (build_command None) (seq 1 10) [] initial = (Ok x, w') /\
    Forall (fun d => 0 <= d) (durations_of x).
Proof.
  apply (durations_nonnegative host_ok 10 (build_command None) (seq 1 10)
           initial).
  intros j _. apply ticking_monotone.
Defined.

(** The third launch exits with status 125: three launches, no more, and
    the command line printed reads back as the command. *)
Lemma third_trial_exits_125 :
  exists evs,
    measure_startup_time (host_exit_at 2 125) sqrt6 10 "1. ベースライン" None
      initial = (Ok tt, advance 5 3 evs initial) /\
    In (Print Stdout
          [Str "コマンド: ";
           Str ("docker run --rm -i docker.elastic.co/logstash/logstash:8.17.4"
                ++ " -e 'input { stdin {} } filter {} output { stdout {} }'")]
          nl) evs /\
    shell_words
      ("docker run --rm -i docker.elastic.co/logstash/logstash:8.17.4"
       ++ " -e 'input { stdin {} } filter {} output { stdout {} }'") =
      Some ["docker"; "run"; "--rm"; "-i";
            "docker.elastic.co/logstash/logstash:8.17.4"; "-e";
            "input { stdin {} } filter {} output { stdout {} }"] /\
    Forall (fun e => prints_statistics e = false) evs.
Proof.
  destruct (nonzero_exit_aborts_configuration (host_exit_at 2 125) sqrt6 10
              "1. ベースライン" None [] initial 2 125)
    as [evs [line [Hm [Hevs [Hline [Hwords [Hq _]]]]]]].
  - lia.
  - intros j Hj. destruct j as [|[|j]]; [reflexivity | reflexivity | lia].
  - reflexivity.
  - discriminate.
  - exists evs. split; [exact Hm|]. split; [|split; [|exact Hq]].
    + rewrite Hevs, Hline. apply in_or_app. right. apply in_or_app. right.
      do 4 right. left. reflexivity.
    + rewrite Hline in Hwords. exact Hwords.
Defined.

(** The second launch raises: two launches, no more, and the text of the
    exception is printed. *)
Lemma second_trial_raises :
  exists evs,
    measure_startup_time (host_raise_at 1 (Failed "boom")) sqrt6 10
      "1. ベースライン" None initial = (Ok tt, advance 3 2 evs initial) /\
    In (Print Stdout
          [Str (nl ++ "予期せぬエラーが発生しました: "); Str "boom"] nl) evs /\
    Forall (fun e => prints_statistics e = false) evs.
Proof.
  destruct (unexpected_exception_aborts_configuration
              (host_raise_at 1 (Failed "boom")) sqrt6 10
              "1. ベースライン" None [] initial 1 (OtherException "boom"))
    as [evs [msg [He [Hm [Hevs [Hq _]]]]]].
  - lia.
  - intros j Hj. destruct j as [|j]; [reflexivity | lia].
  - reflexivity.
  - exists evs. split; [exact Hm|]. split; [|exact Hq].
    assert (Hmsg : msg = "boom")
      by (destruct He as [He|He]; [discriminate He | now injection He]).
    rewrite Hevs, Hmsg. apply in_or_app. right. apply in_or_app. right.
    do 3 right. left. reflexivity.
Defined.

(** With docker available the program exits with status 0. *)
Lemma available_exits_0 :
  fst (run host_ok sqrt6 Source.NUM_RUNS Source.JVM_OPTIONS_SETS) = Exit 0.
Proof.
  destruct (availability_check_decides_exit host_ok sqrt6 Source.NUM_RUNS
              Source.JVM_OPTIONS_SETS) as [_ [_ [H _]]].
  destruct H as [w1 [w2 [_ [_ [_ ->]]]]]; reflexivity.
Defined.

(** Two trials, both successful: one sleep of one second in between. *)
Lemma two_trials_one_sleep :
  exists dr dl evs,
    measure_startup_time host_ok sqrt6 2 "1. ベースライン" None initial =
      (Ok tt, advance dr dl evs initial) /\
    exists k tail,
      pacing evs = (paced_trials (build_command None) k ++ tail)%list.
Proof.
  destruct (one_second_between_trials host_ok sqrt6 2 "1. ベースライン" None
              initial) as [dr [dl [evs [k [tail [Hm [_ [Hp _]]]]]]]].
  exists dr, dl, evs. split; [exact Hm|]. exists k, tail. exact Hp.
Defined.

(** C4 as stated fails when [docker info] cannot be executed: that is
    neither a missing binary nor an unreachable daemon, yet the program
    does not run to completion and does not exit with status 0; nor does
    it print a message of its own. *)
Lemma other_exception_from_check_is_not_caught :
  ~ unavailable (docker host_denied 0) /\
  fst (run host_denied sqrt6 Source.NUM_RUNS Source.JVM_OPTIONS_SETS) =
    Traceback (OtherException "[Errno 13] Permission denied: 'docker'") /\
  fst (run host_denied sqrt6 Source.NUM_RUNS Source.JVM_OPTIONS_SETS) <>
    Exit 0 /\
  exit_status
    (fst (run host_denied sqrt6 Source.NUM_RUNS Source.JVM_OPTIONS_SETS)) =
    1%Z /\
  ~ In (Print Stdout msg_all_done nl)
       (trace (snd (run host_denied sqrt6 Source.NUM_RUNS
                      Source.JVM_OPTIONS_SETS))) /\
  filter is_stderr
    (trace (snd (run host_denied sqrt6 Source.NUM_RUNS
                   Source.JVM_OPTIONS_SETS))) = [].
Proof.
  split; [intros H; exact H|].
  split; [vm_compute; reflexivity|].
  split; [vm_compute; discriminate|].
  split; [vm_compute; reflexivity|].
  split; [|vm_compute; reflexivity].
  vm_compute. intros H.
  repeat (destruct H as [H|H]; [discriminate H|]). exact H.
Qed.

(** * Further properties *)

(** ** The summary *)

Lemma total_lower (m : Q) (ds : list Q) :
  Forall (fun d => m <= d) ds -> m * Qlen ds <= total ds.
Proof.
  unfold Qlen. induction 1 as [|d ds Hd _ IH]; cbn [total length].
  - rewrite Qmult_0_r. apply Qle_refl.
  - rewrite Nat2Z.inj_succ, <- Z.add_1_r, inject_Z_plus, Qmult_plus_distr_r.
    rewrite Qmult_1_r, Qplus_comm. now apply Qplus_le_compat.
Qed.

Lemma total_upper (m : Q) (ds : list Q) :
  Forall (fun d => d <= m) ds -> total ds <= m * Qlen ds.
Proof.
  unfold Qlen. induction 1 as [|d ds Hd _ IH]; cbn [total length].
  - rewrite Qmult_0_r. apply Qle_refl.
  - rewrite Nat2Z.inj_succ, <- Z.add_1_r, inject_Z_plus, Qmult_plus_distr_r.
    rewrite Qmult_1_r, (Qplus_comm (m * _)). now apply Qplus_le_compat.
Qed.

Lemma Qlen_positive (ds : list Q) : ds <> [] -> 0 < Qlen ds.
Proof.
  intros Hne. destruct ds as [|x ds]; [now elim Hne|].
  unfold Qlen, Qlt. cbn. lia.
Qed.

(** The exact mean lies between the minimum and the maximum. *)
Lemma exact_mean_bounds (x : Q) (rest : list Q) :
  min_loop x rest <= Qsum (x :: rest) / Qlen (x :: rest) /\
  Qsum (x :: rest) / Qlen (x :: rest) <= max_loop x rest.
Proof.
  destruct (min_loop_spec rest x) as [_ [Hminx Hminr]].
  destruct (max_loop_spec rest x) as [_ [Hmaxx Hmaxr]].
  assert (Hpos : 0 < Qlen (x :: rest)) by (apply Qlen_positive; discriminate).
  split.
  - apply Qle_shift_div_l; [exact Hpos|]. rewrite Qsum_total.
    apply total_lower. constructor; assumption.
  - apply Qle_shift_div_r; [exact Hpos|]. rewrite Qsum_total.
    apply total_upper. constructor; assumption.
Qed.

(** Rounding the mean keeps it between a minimum and a maximum that are
    floats themselves. *)
Lemma mean_bounds (fsqrt : Q -> Q) (durations : list Q) (s : summary) :
  Forall is_float durations ->
  summarize fsqrt durations = Ok s ->
  min_time s <= avg_time s /\ avg_time s <= max_time s.
Proof.
  intros Hf Hs. destruct durations as [|x rest]; [discriminate Hs|].
  rewrite summarize_cons in Hs. injection Hs as <-.
  cbn [min_time max_time avg_time].
  destruct (exact_mean_bounds x rest) as [Hlo Hhi].
  rewrite Forall_forall in Hf.
  pose proof (Hf _ (proj1 (min_loop_spec rest x))) as Hmin.
  pose proof (Hf _ (proj1 (max_loop_spec rest x))) as Hmax.
  unfold is_float in Hmin, Hmax. split.
  - apply Qle_trans with (round64 (min_loop x rest));
      [rewrite Hmin; apply Qle_refl | now apply round64_mono].
  - apply Qle_trans with (round64 (max_loop x rest));
      [now apply round64_mono | rewrite Hmax; apply Qle_refl].
Qed.

(** X1. When the durations are floats (binary64 values, as every duration
    of the program is), the mean reported lies between the minimum and
    the maximum reported: the rounding of [statistics.mean] does not take
    it outside. *)
Theorem mean_between_min_and_max (fsqrt : Q -> Q) (durations : list Q)
    (s : summary) :
  Forall is_float durations ->
  summarize fsqrt durations = Ok s ->
  min_time s <= avg_time s /\ avg_time s <= max_time s.
Proof. apply mean_bounds. Qed.

Lemma mean_between_example :
  exists s,
    summarize sqrt6 [3 # 2; 1 # 2; 2 # 1] = Ok s /\
    min_time s <= avg_time s /\ avg_time s <= max_time s.
Proof.
  eexists. split; [reflexivity|].
  apply (mean_between_min_and_max sqrt6 [3 # 2; 1 # 2; 2 # 1]).
  - repeat (constructor; [vm_compute; reflexivity|]). constructor.
  - reflexivity.
Defined.

(** The hypothesis is about the type of the durations, not about their
    values: 1/3 is no float, and the float nearest to it, which is what
    [statistics.mean] would give for it, is below it. *)
Lemma rounded_mean_of_a_non_float :
  ~ is_float (1 # 3) /\
  exists s, summarize sqrt6 [1 # 3] = Ok s /\ ~ min_time s <= avg_time s.
Proof.
  split.
  - vm_compute. intros H. discriminate H.
  - eexists. split; [reflexivity|].
    vm_compute. intros H. apply H. reflexivity.
Qed.

(** X2. When all the durations are the same float, that value is the
    minimum, the maximum and the mean reported. *)
Theorem summary_of_identical_durations (fsqrt : Q -> Q) (durations : list Q)
    (s : summary) (x : Q) :
  Forall is_float durations ->
  summarize fsqrt durations = Ok s ->
  Forall (fun d => d == x) durations ->
  min_time s == x /\ max_time s == x /\ avg_time s == x.
Proof.
  intros Hf Hs Hall.
  destruct (mean_bounds fsqrt durations s Hf Hs) as [Hlo Hhi].
  destruct durations as [|y rest]; [discriminate Hs|].
  rewrite summarize_cons in Hs. injection Hs as <-.
  cbn [min_time max_time avg_time] in *.
  rewrite Forall_forall in Hall.
  pose proof (Hall _ (proj1 (min_loop_spec rest y))) as Hmin.
  pose proof (Hall _ (proj1 (max_loop_spec rest y))) as Hmax.
  repeat split; [exact Hmin | exact Hmax |].
  apply Qle_antisym.
  - rewrite <- Hmax. exact Hhi.
  - rewrite <- Hmin. exact Hlo.
Qed.

Lemma identical_durations_example :
  exists s,
    summarize sqrt6 [3 # 2; 6 # 4; 3 # 2] = Ok s /\ avg_time s == 3 # 2.
Proof.
  eexists. split; [reflexivity|].
  apply (summary_of_identical_durations sqrt6 [3 # 2; 6 # 4; 3 # 2] _ (3 # 2)).
  - repeat (constructor; [vm_compute; reflexivity|]). constructor.
  - reflexivity.
  - repeat constructor.
Defined.

(** ** What one call puts on the trace *)

Lemma slept_app (xs ys : list event) :
  slept (xs ++ ys) = (slept xs + slept ys)%Z.
Proof.
  induction xs as [|[f t e|c i|secs|t] xs IH]; cbn; rewrite ?IH; lia.
Qed.

Lemma done_values_app (xs ys : list event) :
  done_values (xs ++ ys) = (done_values xs ++ done_values ys)%list.
Proof.
  induction xs as [|e xs IH]; cbn [app done_values]; [reflexivity|].
  destruct (done_value e); rewrite IH; reflexivity.
Qed.

Lemma trial_numbers_app (xs ys : list event) :
  trial_numbers (xs ++ ys) = (trial_numbers xs ++ trial_numbers ys)%list.
Proof.
  induction xs as [|e xs IH]; cbn [app trial_numbers]; [reflexivity|].
  destruct (trial_number e); rewrite IH; reflexivity.
Qed.

Section Calls.

Variable h : host.
Variable fsqrt : Q -> Q.
Variable NUM_RUNS : nat.

Lemma launched_run_ok cmd indices : forall r,
  launched (run_ok h NUM_RUNS cmd indices r) =
  repeat (Run cmd (Some hello)) (length indices).
Proof.
  induction indices as [|i rest IH]; intros r; cbn; [reflexivity|].
  unfold launched in IH. now rewrite IH.
Qed.

Lemma slept_run_ok cmd indices : forall r,
  slept (run_ok h NUM_RUNS cmd indices r) = Z.of_nat (length indices).
Proof.
  induction indices as [|i rest IH]; intros r; [reflexivity|].
  cbn [run_ok length]. rewrite slept_app, IH. cbn [trial_events_ok slept]. lia.
Qed.

Lemma done_values_run_ok cmd indices : forall r,
  done_values (run_ok h NUM_RUNS cmd indices r) =
  durations_ok h (length indices) r.
Proof.
  induction indices as [|i rest IH]; intros r; [reflexivity|].
  cbn [run_ok length durations_ok]. rewrite done_values_app, IH. reflexivity.
Qed.

Lemma trial_numbers_run_ok cmd n : forall a r,
  trial_numbers (run_ok h NUM_RUNS cmd (seq a n) r) =
  map (fun i => (Z.of_nat i, Z.of_nat NUM_RUNS)) (seq a n).
Proof.
  induction n as [|n IH]; intros a r; [reflexivity|].
  cbn [seq run_ok map]. rewrite trial_numbers_app, IH. reflexivity.
Qed.

Lemma stderr_run_ok cmd indices : forall r,
  filter is_stderr (run_ok h NUM_RUNS cmd indices r) = [].
Proof.
  induction indices as [|i rest IH]; intros r; cbn; [reflexivity|].
  apply IH.
Qed.

Lemma launched_abort cmd i r o :
  launched (abort_events h NUM_RUNS cmd i r o) = [Run cmd (Some hello)].
Proof. destruct o; reflexivity. Qed.

Lemma trial_numbers_abort cmd i r o :
  trial_numbers (abort_events h NUM_RUNS cmd i r o) =
  [(Z.of_nat i, Z.of_nat NUM_RUNS)].
Proof. destruct o; reflexivity. Qed.

Lemma header_quiet description jvm_opts :
  launched (header description jvm_opts) = [] /\
  trial_numbers (header description jvm_opts) = [] /\
  done_values (header description jvm_opts) = [] /\
  slept (header description jvm_opts) = 0%Z.
Proof. repeat split. Qed.

Lemma results_quiet n s :
  launched (results n s) = [] /\
  trial_numbers (results n s) = [] /\
  done_values (results n s) = [] /\
  slept (results n s) = 5%Z.
Proof. repeat split. Qed.

Lemma repeat_snoc {A} (x : A) (n : nat) :
  (repeat x n ++ [x])%list = repeat x (n + 1).
Proof. rewrite repeat_app. reflexivity. Qed.

Lemma seq_snoc (a k : nat) :
  (seq a k ++ [(a + k)%nat])%list = seq a (k + 1).
Proof. rewrite seq_app. reflexivity. Qed.

(** X3. In one call of [measure_startup_time] every process launched is
    the same command, built once from the tuning flags, fed the same
    input; there are at most [NUM_RUNS] of them; and the lines that
    announce them are numbered 1, 2, ... out of [NUM_RUNS], one per
    launch. *)
Theorem launches_of_one_call description jvm_opts w :
  exists dr dl evs,
    measure_startup_time h fsqrt NUM_RUNS description jvm_opts w =
      (Ok tt, advance dr dl evs w) /\
    (dl <= NUM_RUNS)%nat /\
    launched evs = repeat (Run (build_command jvm_opts) (Some hello)) dl /\
    trial_numbers evs =
      map (fun i => (Z.of_nat i, Z.of_nat NUM_RUNS)) (seq 1 dl).
Proof.
  destruct (header_quiet description jvm_opts) as [Hhl [Hht _]].
  destruct (measure_cases h fsqrt NUM_RUNS description jvm_opts w)
    as [[_ [tail [Hm Htail]]] | [k [Hk [_ [_ Hm]]]]];
    do 3 eexists; (split; [exact Hm|]); (split; [lia|]);
    unfold launched in *; rewrite !filter_app, !trial_numbers_app, Hhl, Hht;
    rewrite trial_numbers_run_ok;
    match goal with
    | |- context [filter is_run (run_ok ?a ?b ?c ?d ?e)] =>
        change (filter is_run (run_ok a b c d e))
          with (launched (run_ok a b c d e))
    end;
    rewrite launched_run_ok, length_seq; cbn [app].
  - destruct Htail as [[_ ->] | [s [_ ->]]]; cbn; rewrite !app_nil_r;
      split; reflexivity.
  - change (filter is_run
              (abort_events h NUM_RUNS (build_command jvm_opts) (S k)
             (reads w + 2 * k)
                 (docker h (launches w + k))))
      with (launched (abort_events h NUM_RUNS (build_command jvm_opts) (S k)
             (reads w + 2 * k)
                        (docker h (launches w + k)))).
    rewrite launched_abort, trial_numbers_abort, repeat_snoc.
    split; [reflexivity|].
    rewrite <- seq_snoc, map_app. reflexivity.
Qed.

(** X4. One call of [measure_startup_time] writes nothing to stderr:
    failed trials are reported on stdout. *)
Theorem one_call_never_writes_to_stderr description jvm_opts w :
  exists dr dl evs,
    measure_startup_time h fsqrt NUM_RUNS description jvm_opts w =
      (Ok tt, advance dr dl evs w) /\
    filter is_stderr evs = [].
Proof.
  destruct (measure_cases h fsqrt NUM_RUNS description jvm_opts w)
    as [[_ [tail [Hm Htail]]] | [k [Hk [_ [_ Hm]]]]];
    do 3 eexists; (split; [exact Hm|]);
    rewrite !filter_app, stderr_run_ok.
  - destruct Htail as [[_ ->] | [s [_ ->]]]; reflexivity.
  - destruct (docker h (launches w + k)); reflexivity.
Qed.

(** X5. When every trial of a call succeeds, the statistics printed are
    those of the durations shown trial by trial, in the order shown, one
    per configured trial. *)
Theorem statistics_of_the_durations_shown description jvm_opts w :
  (1 <= NUM_RUNS)%nat ->
  all_succeed h (launches w) NUM_RUNS ->
  exists front s,
    measure_startup_time h fsqrt NUM_RUNS description jvm_opts w =
      (Ok tt,
       advance (2 * NUM_RUNS) NUM_RUNS (front ++ results NUM_RUNS s) w) /\
    length (done_values front) = NUM_RUNS /\
    summarize fsqrt (done_values front) = Ok s /\
    done_values (front ++ results NUM_RUNS s) = done_values front.
Proof.
  intros Hn Hall.
  destruct (measure_cases h fsqrt NUM_RUNS description jvm_opts w)
    as [[_ [tail [Hm Htail]]] | [k [Hk [Hallk [Hbad _]]]]].
  - destruct Htail as [[H0 _] | [s [Hs ->]]]; [lia|].
    set (front := (header description jvm_opts ++
                   run_ok h NUM_RUNS (build_command jvm_opts)
                     (seq 1 NUM_RUNS) (reads w))%list).
    assert (Hd : done_values front = durations_ok h NUM_RUNS (reads w)).
    { unfold front.
      rewrite done_values_app, done_values_run_ok, length_seq. reflexivity. }
    exists front, s. unfold front at 1. rewrite <- app_assoc.
    split; [exact Hm|].
    rewrite (done_values_app front), Hd.
    split; [apply length_durations_ok|]. split; [exact Hs|].
    cbn. apply app_nil_r.
  - exfalso. apply Hbad. apply Hall. exact Hk.
Qed.

(** X6. One call of [measure_startup_time] sleeps one second per
    successful trial, and five more after printing results: at most
    [NUM_RUNS + 5] seconds, and exactly that when every trial succeeds and
    there is at least one; when a trial fails, one second per trial before
    it. *)
Theorem seconds_slept_by_one_call description jvm_opts w :
  exists dr dl evs,
    measure_startup_time h fsqrt NUM_RUNS description jvm_opts w =
      (Ok tt, advance dr dl evs w) /\
    (0 <= slept evs <= Z.of_nat NUM_RUNS + 5)%Z /\
    ((1 <= NUM_RUNS)%nat -> all_succeed h (launches w) NUM_RUNS ->
     slept evs = (Z.of_nat NUM_RUNS + 5)%Z) /\
    (~ all_succeed h (launches w) NUM_RUNS ->
     slept evs = (Z.of_nat dl - 1)%Z).
Proof.
  destruct (measure_cases h fsqrt NUM_RUNS description jvm_opts w)
    as [[Hok [tail [Hm Htail]]] | [k [Hk [_ [Hbad Hm]]]]];
    do 3 eexists; (split; [exact Hm|]);
    rewrite !slept_app, slept_run_ok, length_seq.
  - destruct Htail as [[H0 ->] | [s [_ ->]]]; cbn [header slept results];
      (split; [lia|]); (split; [intros; lia|]);
      intros Hno; now elim Hno.
  - assert (Hz : slept (abort_events h NUM_RUNS (build_command jvm_opts) (S k)
             (reads w + 2 * k)
                         (docker h (launches w + k))) = 0%Z)
      by (destruct (docker h (launches w + k)); reflexivity).
    rewrite Hz. cbn [header slept]. repeat split; try lia.
    intros _ Hall. exfalso. apply Hbad. apply Hall. exact Hk.
Qed.

End Calls.

(** ** What the whole program uses *)

Lemma stdout_no_sleep evs :
  Forall (fun e => is_stdout e = true) evs -> slept evs = 0%Z.
Proof.
  induction 1 as [|[[|] t e| | |] evs H _ IH]; cbn; try discriminate H.
  - reflexivity.
  - exact IH.
Qed.

Lemma all_succeed_split h l n m :
  all_succeed h l (n + m) ->
  all_succeed h l n /\ all_succeed h (l + n) m.
Proof.
  intros H. split.
  - intros j Hj. apply H. lia.
  - intros j Hj. rewrite <- Nat.add_assoc. apply H. lia.
Qed.

Section Resources.

Variable h : host.
Variable fsqrt : Q -> Q.
Variable NUM_RUNS : nat.

(** What one call uses: clock readings, launches, seconds of sleep. *)
Lemma call_bounds description jvm_opts w :
  exists dr dl evs,
    measure_startup_time h fsqrt NUM_RUNS description jvm_opts w =
      (Ok tt, advance dr dl evs w) /\
    (dr <= 2 * NUM_RUNS)%nat /\ (dl <= NUM_RUNS)%nat /\
    length (launched evs) = dl /\
    (0 <= slept evs <= Z.of_nat NUM_RUNS + 5)%Z /\
    (all_succeed h (launches w) NUM_RUNS -> dr = (2 * NUM_RUNS)%nat /\ dl = NUM_RUNS).
Proof.
  destruct (header_quiet description jvm_opts) as [Hhl [_ [_ Hhs]]].
  destruct (measure_cases h fsqrt NUM_RUNS description jvm_opts w)
    as [[_ [tail [Hm Htail]]] | [k [Hk [_ [Hbad Hm]]]]];
    do 3 eexists; (split; [exact Hm|]); (split; [lia|]); (split; [lia|]);
    unfold launched in *; rewrite !filter_app, !slept_app, Hhl, Hhs;
    rewrite slept_run_ok;
    match goal with
    | |- context [filter is_run (run_ok ?a ?b ?c ?d ?e)] =>
        change (filter is_run (run_ok a b c d e))
          with (launched (run_ok a b c d e))
    end;
    rewrite launched_run_ok, !length_app, repeat_length, length_seq.
  - destruct Htail as [[_ ->] | [s [_ ->]]];
      cbn [header slept length app results filter is_run];
      (split; [lia|]); (split; [lia|]); intros _; split; reflexivity.
  - change (filter is_run
              (abort_events h NUM_RUNS (build_command jvm_opts) (S k)
             (reads w + 2 * k)
                 (docker h (launches w + k))))
      with (launched (abort_events h NUM_RUNS (build_command jvm_opts) (S k)
             (reads w + 2 * k)
                        (docker h (launches w + k)))).
    rewrite launched_abort.
    assert (Hz : slept (abort_events h NUM_RUNS (build_command jvm_opts) (S k)
             (reads w + 2 * k)
                         (docker h (launches w + k))) = 0%Z)
      by (destruct (docker h (launches w + k)); reflexivity).
    rewrite Hz. cbn [header slept length app filter is_run].
    split; [lia|]. split; [lia|].
    intros Hall. exfalso. apply Hbad, Hall, Hk.
Qed.

(** What a list of configurations uses. *)
Lemma measure_all_bounds sets : forall w,
  exists dr dl evs,
    measure_all h fsqrt NUM_RUNS sets w = (Ok tt, advance dr dl evs w) /\
    (dr <= 2 * NUM_RUNS * length sets)%nat /\
    (dl <= NUM_RUNS * length sets)%nat /\
    length (launched evs) = dl /\
    (0 <= slept evs <= (Z.of_nat NUM_RUNS + 5) * Z.of_nat (length sets))%Z /\
    (all_succeed h (launches w) (NUM_RUNS * length sets) ->
     dr = (2 * NUM_RUNS * length sets)%nat /\
     dl = (NUM_RUNS * length sets)%nat).
Proof.
  induction sets as [|[opts desc] rest IH]; intros w.
  - exists 0%nat, 0%nat, []. cbn [measure_all length]. unfold ret.
    rewrite advance_0. cbn. repeat split; lia.
  - destruct (call_bounds desc opts w)
      as [dr [dl [evs [Hm [Hdr [Hdl [Hlen [Hs Hall]]]]]]]].
    rewrite (measure_all_cons h fsqrt NUM_RUNS desc opts rest w _ Hm).
    destruct (IH (advance dr dl evs w))
      as [dr' [dl' [evs' [Hm' [Hdr' [Hdl' [Hlen' [Hs' Hall']]]]]]]].
    rewrite Hm', advance_advance. do 3 eexists. split; [reflexivity|].
    cbn [length]. unfold launched in *.
    rewrite filter_app, length_app, slept_app, Hlen, Hlen'.
    split; [nia|]. split; [nia|]. split; [reflexivity|]. split; [nia|].
    intros Hok. replace (NUM_RUNS * S (length rest))%nat
      with (NUM_RUNS + NUM_RUNS * length rest)%nat in Hok by lia.
    apply all_succeed_split in Hok. destruct Hok as [H1 H2].
    destruct (Hall H1) as [-> ->]. cbn [launches advance] in Hall'.
    destruct (Hall' H2) as [-> ->]. split; lia.
Qed.

Lemma succeeded_iff (o : spawn_outcome) :
  succeeded o = true <-> o = Exited 0.
Proof.
  destruct o as [rc|msg|msg]; cbn; try (split; discriminate).
  rewrite Z.eqb_eq. split; [intros ->; reflexivity | intros H; now injection H].
Qed.

(** X7. The exit status of the program is 0 when [docker info] exits
    with status 0, whatever happens to the trials afterwards, and 1 in
    every other case. *)
Theorem exit_status_tells_availability sets :
  exit_status (fst (run h fsqrt NUM_RUNS sets)) =
    (if succeeded (docker h 0) then 0 else 1)%Z.
Proof.
  unfold run, run_from.
  destruct (main_unfold h fsqrt NUM_RUNS sets initial)
    as [banner [preamble [_ [_ ->]]]].
  destruct (docker h 0) as [rc|msg|msg] eqn:Ho; cbn [succeeded].
  - destruct (Z.eqb_spec rc 0) as [->|Hrc].
    + rewrite (check_docker_ok h (emits banner initial) Ho).
      destruct (measure_all_total h fsqrt NUM_RUNS sets
                  (emits preamble
                     (advance 0 1 [Run ["docker"; "info"] None]
                        (emits banner initial)))) as [dr [dl [evs ->]]].
      reflexivity.
    + rewrite (check_docker_no_daemon h (emits banner initial) rc Ho Hrc).
      reflexivity.
  - rewrite (check_docker_not_found h (emits banner initial) msg Ho).
    reflexivity.
  - rewrite (check_docker_failed h (emits banner initial) msg Ho).
    reflexivity.
Qed.

(** X8. If [docker info] does not exit with status 0, the program takes
    no clock reading, never sleeps and launches no other process. *)
Theorem nothing_measured_without_docker sets :
  succeeded (docker h 0) = false ->
  reads (snd (run h fsqrt NUM_RUNS sets)) = 0%nat /\
  launches (snd (run h fsqrt NUM_RUNS sets)) = 1%nat /\
  slept (trace (snd (run h fsqrt NUM_RUNS sets))) = 0%Z.
Proof.
  intros Hs. unfold run, run_from.
  destruct (main_unfold h fsqrt NUM_RUNS sets initial)
    as [banner [preamble [Hb [_ ->]]]].
  pose proof (stdout_no_sleep banner Hb) as Hbs.
  destruct (docker h 0) as [rc|msg|msg] eqn:Ho; cbn [succeeded] in Hs.
  - apply Z.eqb_neq in Hs.
    rewrite (check_docker_no_daemon h (emits banner initial) rc Ho Hs).
    cbn [snd reads launches trace advance emits initial app].
    rewrite slept_app, Hbs. repeat split.
  - rewrite (check_docker_not_found h (emits banner initial) msg Ho).
    cbn [snd reads launches trace advance emits initial app].
    rewrite slept_app, Hbs. repeat split.
  - rewrite (check_docker_failed h (emits banner initial) msg Ho).
    cbn [snd reads launches trace advance emits initial app].
    rewrite slept_app, Hbs. repeat split.
Qed.

(** X9. If [docker info] exits with status 0, the program launches at
    most one process per configured trial besides it, takes at most two
    clock readings per trial, and sleeps at most [NUM_RUNS + 5] seconds per
    configuration; when every launch succeeds the first two bounds are
    reached. *)
Theorem resources_of_the_program sets :
  docker h 0 = Exited 0 ->
  exists w',
    run h fsqrt NUM_RUNS sets = (Exit 0, w') /\
    (launches w' <= 1 + NUM_RUNS * length sets)%nat /\
    length (launched (trace w')) = launches w' /\
    (reads w' <= 2 * NUM_RUNS * length sets)%nat /\
    (0 <= slept (trace w') <=
       (Z.of_nat NUM_RUNS + 5) * Z.of_nat (length sets))%Z /\
    (all_succeed h 1 (NUM_RUNS * length sets) ->
     launches w' = (1 + NUM_RUNS * length sets)%nat /\
     reads w' = (2 * NUM_RUNS * length sets)%nat).
Proof.
  intros Ho. unfold run, run_from.
  destruct (main_unfold h fsqrt NUM_RUNS sets initial)
    as [banner [preamble [Hb [Hp ->]]]].
  rewrite (check_docker_ok h (emits banner initial) Ho).
  set (w1 := emits preamble _).
  destruct (measure_all_bounds sets w1)
    as [dr [dl [evs [Hm [Hdr [Hdl [Hlen [Hs Hall]]]]]]]].
  rewrite Hm. eexists. split; [reflexivity|].
  unfold w1. cbn [reads launches trace advance emits initial app plus].
  unfold launched in *.
  rewrite !filter_app, !slept_app, !length_app.
  rewrite (stdout_not_run banner Hb), (stdout_not_run preamble Hp).
  rewrite (stdout_no_sleep banner Hb), (stdout_no_sleep preamble Hp), Hlen.
  cbn [filter is_run length slept app].
  split; [lia|]. split; [lia|]. split; [lia|]. split; [lia|].
  intros Hok. destruct (Hall Hok) as [-> ->]. split; lia.
Qed.

(** X10. Measuring a list of configurations never raises, and measuring
    [xs ++ ys] is measuring [xs] and then [ys] from the world that
    leaves. *)
Theorem measure_all_app xs ys w :
  exists w',
    measure_all h fsqrt NUM_RUNS xs w = (Ok tt, w') /\
    measure_all h fsqrt NUM_RUNS (xs ++ ys) w =
      measure_all h fsqrt NUM_RUNS ys w'.
Proof.
  revert w. induction xs as [|[opts desc] xs IH]; intros w.
  - exists w. split; reflexivity.
  - destruct (measure_all_total h fsqrt NUM_RUNS [(opts, desc)] w)
      as [dr [dl [evs Hone]]].
    cbn [measure_all] in Hone. unfold bind, ret in Hone.
    destruct (measure_startup_time h fsqrt NUM_RUNS desc opts w)
      as [[[]|e] w1] eqn:Hm; [|discriminate Hone].
    destruct (IH w1) as [w' [Hxs Happ]].
    exists w'. cbn [app measure_all]. unfold bind. rewrite Hm.
    split; [exact Hxs | exact Happ].
Qed.

End Resources.

(** ** The command and the availability check, on their own *)

(** X11. Two values of the tuning flags give the same command exactly
    when they are the same value or both count as no flags ([None] or the
    empty string). *)
Theorem command_determines_flags (o1 o2 : option string) :
  build_command o1 = build_command o2 <->
  (truthy o1 = false /\ truthy o2 = false) \/ o1 = o2.
Proof.
  split.
  - destruct o1 as [[|c1 s1]|], o2 as [[|c2 s2]|]; cbn; intros H;
      try (left; split; reflexivity); try discriminate H.
    right. injection H as -> ->. reflexivity.
  - intros [[H1 H2] | ->]; [|reflexivity].
    destruct o1 as [[|c1 s1]|], o2 as [[|c2 s2]|];
      try discriminate H1; try discriminate H2; reflexivity.
Qed.

(** X12. [check_docker] launches [docker info] once, reads no clock, and
    prints on stderr only, and only when it answers [False].  Unless the
    launch raises some other exception, which it lets through, it answers
    whether [docker info] exited with status 0. *)
Theorem check_docker_answers (h : host) (w : world) :
  exists evs,
    snd (check_docker h w) =
      advance 0 1 (Run ["docker"; "info"] None :: evs) w /\
    Forall (fun e => is_stderr e = true) evs /\
    (evs <> [] <-> fst (check_docker h w) = Ok false) /\
    ((forall msg, docker h (launches w) <> Failed msg) ->
     fst (check_docker h w) = Ok (succeeded (docker h (launches w)))) /\
    (forall msg, docker h (launches w) = Failed msg ->
     fst (check_docker h w) = Raise (OtherException msg)).
Proof.
  destruct (docker h (launches w)) as [rc|msg|msg] eqn:Ho.
  - destruct (Z.eq_dec rc 0) as [->|Hrc].
    + rewrite (check_docker_ok h w Ho). exists []. cbn [fst snd succeeded].
      split; [reflexivity|]. split; [constructor|]. split; [|split].
      * split; [intros H; now elim H | discriminate].
      * reflexivity.
      * discriminate.
    + rewrite (check_docker_no_daemon h w rc Ho Hrc). eexists.
      cbn [fst snd succeeded]. split; [reflexivity|].
      split; [repeat constructor|]. split; [|split].
      * split; [reflexivity | discriminate].
      * intros _. apply Z.eqb_neq in Hrc. now rewrite Hrc.
      * discriminate.
  - rewrite (check_docker_not_found h w msg Ho). eexists.
    cbn [fst snd succeeded]. split; [reflexivity|].
    split; [repeat constructor|]. split; [|split].
    + split; [reflexivity | discriminate].
    + reflexivity.
    + discriminate.
  - rewrite (check_docker_failed h w msg Ho). exists [].
    cbn [fst snd]. split; [reflexivity|]. split; [constructor|].
    split; [|split].
    + split; [intros H; now elim H | discriminate].
    + intros H. now elim (H msg).
    + intros msg' H. injection H as ->. reflexivity.
Qed.

(** ** What the loop collects *)

Section Collected.

Variable h : host.
Variable NUM_RUNS : nat.







End Collected.

(** * The further properties at work *)

(** Ten successful trials: the statistics are those of the ten durations
    shown. *)
Lemma ten_durations_shown_and_summarised :
  exists front s,
    measure_startup_time host_ok sqrt6 10 "1. ベースライン" None initial =
      (Ok tt, advance 20 10 (front ++ results 10 s) initial) /\
    length (done_values front) = 10%nat /\
    summarize sqrt6 (done_values front) = Ok s.
Proof.
  destruct (statistics_of_the_durations_shown host_ok sqrt6 10
              "1. ベースライン" None initial) as [front [s [Hm [Hl [Hs _]]]]].
  - lia.
  - intros j _. reflexivity.
  - exists front, s. repeat split; assumption.
Defined.

(** No binary: one launch, no clock reading, no sleep. *)
Lemma missing_binary_measures_nothing :
  reads (snd (run (host_missing_at 0) sqrt6 Source.NUM_RUNS
                Source.JVM_OPTIONS_SETS)) = 0%nat /\
  launches (snd (run (host_missing_at 0) sqrt6 Source.NUM_RUNS
                   Source.JVM_OPTIONS_SETS)) = 1%nat.
Proof.
  destruct (nothing_measured_without_docker (host_missing_at 0) sqrt6
              Source.NUM_RUNS Source.JVM_OPTIONS_SETS) as [Hr [Hl _]].
  - reflexivity.
  - split; assumption.
Defined.

(** The program as shipped, every launch succeeding: 21 launches and 40
    clock readings. *)
Lemma shipped_program_uses :
  exists w',
    run host_ok sqrt6 Source.NUM_RUNS Source.JVM_OPTIONS_SETS = (Exit 0, w') /\
    launches w' = 21%nat /\ reads w' = 40%nat.
Proof.
  destruct (resources_of_the_program host_ok sqrt6 Source.NUM_RUNS
              Source.JVM_OPTIONS_SETS) as [w' [Hrun [_ [_ [_ [_ Hall]]]]]].
  - reflexivity.
  - exists w'. split; [exact Hrun|]. apply Hall. intros j _. reflexivity.
Defined.

(** The third trial fails: two seconds slept, three launches. *)
Lemma failed_trial_sleeps_less :
  exists dr dl evs,
    measure_startup_time (host_exit_at 2 125) sqrt6 10 "1. ベースライン" None
      initial = (Ok tt, advance dr dl evs initial) /\
    (0 <= slept evs <= 15)%Z.
Proof.
  destruct (seconds_slept_by_one_call (host_exit_at 2 125) sqrt6 10
              "1. ベースライン" None initial)
    as [dr [dl [evs [Hm [Hb _]]]]].
  exists dr, dl, evs. split; [exact Hm | exact Hb].
Defined.
